(** * DHT12 humidity/temperature sensor driver (src/dht12.c)

    A shallow embedding of the three driver entry points
    [dht12_read_data], [dht12_trigger_handler] and [dht12_read_raw], of the
    channel table and of [dht12_probe] and [dht12_remove].

    The I2C core, the IIO core and the errno values live in kernel headers,
    not in the driver: the bus is an abstract state with the two transfer
    functions the driver calls, and the constants are section variables.
    Everything the driver does to the outside (locking, bus transfers,
    sleeps, log lines, pushes to the IIO buffer, trigger acknowledgement)
    is recorded, in program order, in an event log. *)

From Stdlib Require Import ZArith List Bool Lia String Sorted.
From Stdlib Require Import Strings.Byte Strings.Ascii.
Import ListNotations.
Open Scope Z_scope.

(** ** Machine integers *)

(** Value of a [u8] after the integer promotion C applies to it. *)
Definition rx (b : byte) : Z := Z.of_N (Byte.to_N b).

(** Conversion of an [int] to [u8]: reduction modulo 2^8. *)
Definition to_u8 (z : Z) : Z := z mod 256.

(** Conversion of an [int] to [s16]: two's complement wrap-around. *)
Definition to_s16 (z : Z) : Z := (z + 32768) mod 65536 - 32768.

(** ** Data of the driver *)

(** [u8 rx_buf[5]]: Humid MSB, Humid LSB, Temp MSB, Temp LSB, CRC. *)
Record rx_buf_t := mk_rx_buf {
  rx_buf0 : byte;
  rx_buf1 : byte;
  rx_buf2 : byte;
  rx_buf3 : byte;
  rx_buf4 : byte
}.

(** [struct dht12_sensor_data]; both fields are [s16]. *)
Record dht12_sensor_data := mk_sensor_data {
  hum_data : Z;
  temp_data : Z
}.

(** [u8 tx_buf[1] = {0x00}]. *)
Definition tx_buf : list byte := [x00].

(** [sizeof(rx_buf)]. *)
Definition rx_buf_size : Z := 5.

(** Modelled from the spec: [GENMASK] is a kernel macro that is not part of
    the driver; the spec gives the full two-channel mask as 0b11. *)
Definition DHT12_ALL_CHANNEL_MASK : Z := 3.

(** The channel types the driver's table uses ([IIO_CHAN_SOFT_TIMESTAMP]
    expands to an [IIO_TIMESTAMP] channel) and every other enumerator. *)
Inductive iio_chan_type :=
| IIO_HUMIDITYRELATIVE
| IIO_TEMP
| IIO_TIMESTAMP
| IIO_CHAN_TYPE_other (n : nat).

(** The info-type selector [mask] of [read_raw]. *)
Inductive iio_chan_info_enum :=
| IIO_CHAN_INFO_RAW
| IIO_CHAN_INFO_SCALE
| IIO_CHAN_INFO_other (n : nat).

Inductive irqreturn_t := IRQ_NONE | IRQ_HANDLED | IRQ_WAKE_THREAD.

(** The fields of [struct iio_dev] and [struct iio_poll_func] the trigger
    handler reads. *)
Record iio_dev := mk_iio_dev {
  active_scan_mask : Z;
  masklength : nat
}.

Record iio_poll_func := mk_poll_func {
  indio_dev : iio_dev;
  timestamp : Z
}.

(** ** Event log *)

Inductive event :=
| EvMutexLock
| EvMutexUnlock
| EvI2cSend (buf : list byte)
| EvI2cRecv (count : Z)
| EvUsleepRange (min max : Z)
| EvDevErr (msg : string)
| EvChecksum (crc : Z) (received : Z)   (* lines 75-76 *)
| EvDecode (sd : dht12_sensor_data)     (* lines 81-82 *)
| EvBufferStore (i : nat) (v : Z)       (* data->buffer[i] = v *)
| EvPush (slot0 slot1 : Z) (ts : Z)
| EvTriggerNotifyDone.

Definition is_send (e : event) : bool :=
  match e with EvI2cSend _ => true | _ => false end.

Definition is_recv (e : event) : bool :=
  match e with EvI2cRecv _ => true | _ => false end.

Definition is_bus_op (e : event) : bool := is_send e || is_recv e.

Definition is_push (e : event) : bool :=
  match e with EvPush _ _ _ => true | _ => false end.

Definition is_done (e : event) : bool :=
  match e with EvTriggerNotifyDone => true | _ => false end.

Definition is_store (e : event) : bool :=
  match e with EvBufferStore _ _ => true | _ => false end.

Definition is_check_or_decode (e : event) : bool :=
  match e with EvChecksum _ _ | EvDecode _ => true | _ => false end.

Definition is_sleep (e : event) : bool :=
  match e with EvUsleepRange _ _ => true | _ => false end.

Definition is_lock (e : event) : bool :=
  match e with EvMutexLock => true | _ => false end.

(** What the lock is said to leave out: checksum test, decoding and the
    assembly of the capture buffer. *)
Definition is_check_decode_or_store (e : event) : bool :=
  is_check_or_decode e || is_store e.

(** What the driver does with the mutex held. *)
Definition is_locked_work (e : event) : bool :=
  is_bus_op e || is_sleep e || is_store e.

(** What the driver does with the mutex released. *)
Definition is_unlocked_work (e : event) : bool :=
  is_check_or_decode e || is_push e || is_done e.

(** Number of events of a kind in a log. *)
Definition count (P : event -> bool) (t : list event) : nat :=
  List.length (filter P t).

(** State of the mutex after an event. *)
Definition lock_step (held : bool) (e : event) : bool :=
  match e with
  | EvMutexLock => true
  | EvMutexUnlock => false
  | _ => held
  end.

Definition held_after (held : bool) (t : list event) : bool :=
  fold_left lock_step t held.

(** No event of kind [P] happens while the mutex is held. *)
Fixpoint never_while_locked (P : event -> bool) (held : bool)
         (t : list event) : bool :=
  match t with
  | [] => true
  | e :: t' =>
      negb (held && P e) && never_while_locked P (lock_step held e) t'
  end.

(** Every event of kind [P] happens while the mutex is held. *)
Fixpoint only_while_locked (P : event -> bool) (held : bool)
         (t : list event) : bool :=
  match t with
  | [] => true
  | e :: t' =>
      (negb (P e) || held) && only_while_locked P (lock_step held e) t'
  end.

(** The mutex is never taken while held nor released while free. *)
Fixpoint lock_balanced (held : bool) (t : list event) : bool :=
  match t with
  | [] => true
  | EvMutexLock :: t' => negb held && lock_balanced true t'
  | EvMutexUnlock :: t' => held && lock_balanced false t'
  | _ :: t' => lock_balanced held t'
  end.

(** The discipline the driver follows, as one test on a log that starts
    with the mutex in state [h]. *)
Definition lock_scope_ok (h : bool) (t : list event) : bool :=
  lock_balanced h t &&
  only_while_locked is_locked_work h t &&
  never_while_locked is_unlocked_work h t.

(** Modelled from the spec: [for_each_set_bit] is a kernel macro that is not
    part of the driver; it visits, in ascending order, the positions below
    [size] of the bits that are set. *)
Definition set_bits (mask : Z) (size : nat) : list nat :=
  filter (fun bit => Z.testbit mask (Z.of_nat bit)) (seq 0 size).

(** Lines 75-76: [crc = rx_buf[0] + rx_buf[1] + rx_buf[2] + rx_buf[3]],
    stored in a [u8]. *)
Definition dht12_crc (b : rx_buf_t) : Z :=
  to_u8 (rx (rx_buf0 b) + rx (rx_buf1 b) + rx (rx_buf2 b) + rx (rx_buf3 b)).

(** The test [crc != rx_buf[4]] of line 76, negated. *)
Definition checksum_ok (b : rx_buf_t) : bool :=
  dht12_crc b =? rx (rx_buf4 b).

(** Lines 81-82: the two stores into [*sensor_data]. *)
Definition dht12_decode (b : rx_buf_t) : dht12_sensor_data :=
  {| hum_data := to_s16 (rx (rx_buf0 b) * 100 + rx (rx_buf1 b));
     temp_data := to_s16 (rx (rx_buf2 b) * 100 + rx (rx_buf3 b)) |}.

(** [struct dht12_data] ([buffer] is [s16 buffer[2]]) together with the
    adapter state and the log. *)
Record world (bus : Type) := mk_world {
  w_bus : bus;
  w_buffer : Z * Z;
  w_log : list event
}.
Arguments mk_world {bus} _ _ _.
Arguments w_bus {bus} _.
Arguments w_buffer {bus} _.
Arguments w_log {bus} _.

(** A run either returns a value and a new world, or stores past the end
    of [data->buffer], which C leaves undefined. *)
Inductive outcome (bus A : Type) :=
| Ok (a : A) (w : world bus)
| Undefined.
Arguments Ok {bus A} a w.
Arguments Undefined {bus A}.

Definition M (bus A : Type) : Type := world bus -> outcome bus A.

Definition ret {bus A} (a : A) : M bus A := fun w => Ok a w.

Definition bind {bus A B} (m : M bus A) (k : A -> M bus B) : M bus B :=
  fun w => match m w with
           | Ok a w' => k a w'
           | Undefined => Undefined
           end.

Notation "x <- m ;; k" := (bind m (fun x => k))
  (at level 61, m at next level, right associativity).
Notation "m ;; k" := (bind m (fun _ => k))
  (at level 61, right associativity).

Definition emit {bus} (e : event) : M bus unit :=
  fun w => Ok tt {| w_bus := w_bus w; w_buffer := w_buffer w;
                    w_log := w_log w ++ [e] |}.

Definition mutex_lock {bus} : M bus unit := emit EvMutexLock.
Definition mutex_unlock {bus} : M bus unit := emit EvMutexUnlock.
Definition usleep_range {bus} (min max : Z) : M bus unit := emit (EvUsleepRange min max).
Definition dev_err {bus} (msg : string) : M bus unit := emit (EvDevErr msg).
Definition iio_trigger_notify_done {bus} : M bus unit := emit EvTriggerNotifyDone.

(** [data->buffer[i] = v]. *)
Definition buffer_store {bus} (i : nat) (v : Z) : M bus unit :=
  fun w =>
    match i with
    | O => Ok tt {| w_bus := w_bus w; w_buffer := (v, snd (w_buffer w));
                    w_log := w_log w ++ [EvBufferStore 0 v] |}
    | S O => Ok tt {| w_bus := w_bus w; w_buffer := (fst (w_buffer w), v);
                      w_log := w_log w ++ [EvBufferStore 1 v] |}
    | _ => Undefined
    end.

Definition iio_push_to_buffers_with_timestamp {bus} (ts : Z) : M bus unit :=
  fun w => emit (EvPush (fst (w_buffer w)) (snd (w_buffer w)) ts) w.

(** The two slots of [data->buffer], in index order. *)
Definition slots {bus} (w : world bus) : list Z :=
  [fst (w_buffer w); snd (w_buffer w)].

(** [bit ? sensor_data.temp_data : sensor_data.hum_data]. *)
Definition channel_value (sd : dht12_sensor_data) (bit : nat) : Z :=
  match bit with
  | O => hum_data sd
  | S _ => temp_data sd
  end.

(** The stores of a run of the loop that starts at slot [i]. *)
Fixpoint store_events (sd : dht12_sensor_data) (bits : list nat) (i : nat)
  : list event :=
  match bits with
  | [] => []
  | bit :: rest =>
      EvBufferStore i (channel_value sd bit) :: store_events sd rest (S i)
  end.

(** ** The four shapes of one bus transaction's log *)

Definition log_send_failed : list event :=
  [EvMutexLock; EvI2cSend tx_buf;
   EvDevErr "failed to send read request"; EvMutexUnlock].

Definition log_recv_failed : list event :=
  [EvMutexLock; EvI2cSend tx_buf; EvUsleepRange 10000 20000;
   EvI2cRecv rx_buf_size;
   EvDevErr "failed to read sensor data"; EvMutexUnlock].

Definition log_exchange : list event :=
  [EvMutexLock; EvI2cSend tx_buf; EvUsleepRange 10000 20000;
   EvI2cRecv rx_buf_size; EvUsleepRange 10000 20000; EvMutexUnlock].

Definition log_bad_checksum (f : rx_buf_t) : list event :=
  log_exchange ++
  [EvChecksum (dht12_crc f) (rx (rx_buf4 f));
   EvDevErr "failed to verify sensor data"].

Definition log_good (f : rx_buf_t) : list event :=
  log_exchange ++
  [EvChecksum (dht12_crc f) (rx (rx_buf4 f)); EvDecode (dht12_decode f)].

(** The logs one transaction can leave. *)
Inductive transaction_log : list event -> Prop :=
| tl_send_failed : transaction_log log_send_failed
| tl_recv_failed : transaction_log log_recv_failed
| tl_bad_checksum f : transaction_log (log_bad_checksum f)
| tl_good f : transaction_log (log_good f).

(** ** A scripted adapter

    An adapter that answers the transfer calls from a list, one entry per
    call; a send takes the return value of its entry. Once the list is used
    up every call fails with -5. *)

Definition script : Type := list (Z * rx_buf_t).

Definition zero_buf : rx_buf_t := mk_rx_buf x00 x00 x00 x00 x00.

Definition script_send (b : script) (buf : list byte) : Z * script :=
  match b with
  | [] => (-5, [])
  | (r, _) :: b' => (r, b')
  end.

Definition script_recv (b : script) (n : Z) : Z * rx_buf_t * script :=
  match b with
  | [] => (-5, zero_buf, [])
  | (r, f) :: b' => (r, f, b')
  end.

(** 23.45 %RH and 26.50 degrees with a matching checksum (0x90 = 144). *)
Definition frame_good : rx_buf_t := mk_rx_buf x17 x2d x1a x32 x90.

(** The same frame with a checksum byte that does not match. *)
Definition frame_bad : rx_buf_t := mk_rx_buf x17 x2d x1a x32 x91.

(** Another valid frame: 40.07 %RH and 19.03 degrees (0x45 = 69). *)
Definition frame_other : rx_buf_t := mk_rx_buf x28 x07 x13 x03 x45.

Definition sent_ok : Z * rx_buf_t := (1, zero_buf).

Definition world0 (b : script) : world script :=
  mk_world b (0, 0) [].

(** Both transactions of a firing answered with valid frames. *)
Definition script_two_good : script :=
  [sent_ok; (5, frame_other); sent_ok; (5, frame_good)].

(** First transaction refused at the send, second one valid. *)
Definition script_fail_then_good : script :=
  [(-5, zero_buf); sent_ok; (5, frame_good)].

(** First transaction valid, second one with a bad checksum. *)
Definition script_good_then_bad : script :=
  [sent_ok; (5, frame_good); sent_ok; (5, frame_bad)].

(** The world a firing with both channels enabled leaves behind on
    [script_two_good]. *)
Definition world_two_good : world script :=
  mk_world [] (2345, 2650)
    (log_good frame_other ++ log_good frame_good ++
     [EvMutexLock; EvBufferStore 0 2345; EvBufferStore 1 2650;
      EvMutexUnlock; EvPush 2345 2650 1700000000; EvTriggerNotifyDone]).

Definition pf_mask (mask : Z) : iio_poll_func :=
  mk_poll_func (mk_iio_dev mask 3) 1700000000.

Definition stack0 : dht12_sensor_data := mk_sensor_data (-1) (-1).


(** ** The channel table *)

Inductive iio_endian := IIO_CPU | IIO_BE | IIO_LE.

(** [struct iio_chan_spec], the fields the driver's table gives, with
    [.scan_type] inlined. [info_mask_separate] is the set of bits the
    table ors together. *)
Record iio_scan_type := mk_scan_type {
  sign : ascii;
  realbits : Z;
  storagebits : Z;
  endianness : iio_endian
}.

Record iio_chan_spec := mk_chan_spec {
  spec_type : iio_chan_type;
  info_mask_separate : list iio_chan_info_enum;
  scan_index : Z;
  scan_type : iio_scan_type
}.

(** Modelled from the spec: [IIO_CHAN_SOFT_TIMESTAMP] is a kernel macro that
    is not part of the driver; the spec has it as a soft timestamp channel,
    a 64-bit signed value with no info attributes of its own. *)
Definition IIO_CHAN_SOFT_TIMESTAMP (si : Z) : iio_chan_spec :=
  {| spec_type := IIO_TIMESTAMP;
     info_mask_separate := [];
     scan_index := si;
     scan_type := mk_scan_type "s"%char 64 64 IIO_CPU |}.

Definition dht12_channels : list iio_chan_spec :=
  [ {| spec_type := IIO_HUMIDITYRELATIVE;
       info_mask_separate := [IIO_CHAN_INFO_RAW; IIO_CHAN_INFO_SCALE];
       scan_index := 0;
       scan_type := mk_scan_type "s"%char 16 16 IIO_CPU |};
    {| spec_type := IIO_TEMP;
       info_mask_separate := [IIO_CHAN_INFO_RAW; IIO_CHAN_INFO_SCALE];
       scan_index := 1;
       scan_type := mk_scan_type "s"%char 16 16 IIO_CPU |};
    IIO_CHAN_SOFT_TIMESTAMP 2 ].

(** ** Probe and remove *)

(** The functions the driver hands to the IIO core by address. *)
Inductive callback :=
| fn_dht12_read_raw
| fn_dht12_trigger_handler
| fn_iio_pollfunc_store_time.

(** [struct iio_info dht12_info]. *)
Record iio_info := mk_iio_info {
  read_raw : option callback
}.

Definition dht12_info : iio_info :=
  {| read_raw := Some fn_dht12_read_raw |}.

Inductive iio_mode := INDIO_DIRECT_MODE | INDIO_BUFFER_TRIGGERED.

(** The fields of [*indio_dev] that [dht12_probe] assigns. *)
Record indio_dev_fields := mk_indio_dev_fields {
  dev_info : iio_info;
  dev_name : string;
  dev_modes : list iio_mode;
  dev_channels : list iio_chan_spec;
  dev_num_channels : nat
}.

(** What [dht12_probe] has written into [*indio_dev] by line 177;
    [num_channels] is [ARRAY_SIZE(dht12_channels)]. *)
Definition dht12_indio_dev : indio_dev_fields :=
  {| dev_info := dht12_info;
     dev_name := "dht12";
     dev_modes := [INDIO_DIRECT_MODE];
     dev_channels := dht12_channels;
     dev_num_channels := List.length dht12_channels |}.

(** The calls into the driver core and the IIO core, in program order, with
    what they returned. *)
Inductive kevent :=
| KAlloc (ok : bool)
| KDevErr (msg : string)
| KSetClientdata
| KMutexInit
| KBufferSetup (h thread : callback) (ret : Z)
| KRegister (ret : Z)
| KUnregister
| KBufferCleanup.

(** The IIO core as the driver sees it: a state and the calls of
    [dht12_probe] and [dht12_remove]. [devm_iio_device_alloc] answers
    [false] for a null pointer. *)
Record iio_core (K : Type) := mk_iio_core {
  devm_iio_device_alloc : K -> bool * K;
  iio_triggered_buffer_setup : K -> Z * K;
  iio_device_register : K -> Z * K;
  iio_device_unregister : K -> K;
  iio_triggered_buffer_cleanup : K -> K
}.
Arguments devm_iio_device_alloc {K} _ _.
Arguments iio_triggered_buffer_setup {K} _ _.
Arguments iio_device_register {K} _ _.
Arguments iio_device_unregister {K} _ _.
Arguments iio_triggered_buffer_cleanup {K} _ _.

(** The core's state, what [i2c_get_clientdata] returns (the device as the
    driver has filled it in, or nothing) and the log. *)
Record kworld (K : Type) := mk_kworld {
  k_core : K;
  k_clientdata : option indio_dev_fields;
  k_log : list kevent
}.
Arguments mk_kworld {K} _ _ _.
Arguments k_core {K} _.
Arguments k_clientdata {K} _.
Arguments k_log {K} _.

Definition klog {K} (k : kworld K) (e : kevent) : kworld K :=
  mk_kworld (k_core k) (k_clientdata k) (k_log k ++ [e]).

Definition kset_core {K} (k : kworld K) (c : K) : kworld K :=
  mk_kworld c (k_clientdata k) (k_log k).

(** [dht12_probe]. The fields of [*indio_dev] are written through the
    pointer that [i2c_set_clientdata] has stored. *)
Definition dht12_probe {K} (core : iio_core K) (ENOMEM : Z) (k : kworld K)
  : Z * kworld K :=
  let '(indio_dev, c1) := devm_iio_device_alloc core (k_core k) in
  let k1 := klog (kset_core k c1) (KAlloc indio_dev) in
  if negb indio_dev then
    (- ENOMEM, klog k1 (KDevErr "iio allocation failed!"))
  else
    let k2 :=
      klog (klog (mk_kworld (k_core k1) (Some dht12_indio_dev) (k_log k1))
                 KSetClientdata)
           KMutexInit in
    let '(ret, c2) := iio_triggered_buffer_setup core (k_core k2) in
    let k3 :=
      klog (kset_core k2 c2)
           (KBufferSetup fn_iio_pollfunc_store_time
                         fn_dht12_trigger_handler ret) in
    if ret <? 0 then
      (ret, klog k3 (KDevErr "iio triggered buffer setup failed"))
    else
      let '(ret, c3) := iio_device_register core (k_core k3) in
      let k4 := klog (kset_core k3 c3) (KRegister ret) in
      if ret <? 0 then
        (ret,
         klog (kset_core k4 (iio_triggered_buffer_cleanup core (k_core k4)))
              KBufferCleanup)
      else (0, k4).

(** [dht12_remove]; without client data the null pointer would go to the
    IIO core. *)
Definition dht12_remove {K} (core : iio_core K) (k : kworld K)
  : option (Z * kworld K) :=
  match k_clientdata k with
  | None => None
  | Some _ =>
      let k1 :=
        klog (kset_core k (iio_device_unregister core (k_core k)))
             KUnregister in
      let k2 :=
        klog (kset_core k1 (iio_triggered_buffer_cleanup core (k_core k1)))
             KBufferCleanup in
      Some (0, k2)
  end.

(** What is set up at a point of the log: the mutex, the triggered buffer
    and the registration. *)
Record lifecycle := mk_lifecycle {
  lc_mutex : bool;
  lc_buffer : bool;
  lc_registered : bool
}.

Definition lc_none : lifecycle := mk_lifecycle false false false.

(** One call, or nothing when the call comes out of order: the triggered
    buffer is set up once and with the mutex ready, the device is
    registered once and with the buffer set up, it is unregistered only
    when registered, and the buffer is cleaned up only when set up and no
    longer registered. *)
Definition lifecycle_step (s : lifecycle) (e : kevent) : option lifecycle :=
  match e with
  | KMutexInit => Some (mk_lifecycle true (lc_buffer s) (lc_registered s))
  | KBufferSetup _ _ ret =>
      if lc_mutex s && negb (lc_buffer s)
      then Some (mk_lifecycle (lc_mutex s) (0 <=? ret) (lc_registered s))
      else None
  | KRegister ret =>
      if lc_buffer s && negb (lc_registered s)
      then Some (mk_lifecycle (lc_mutex s) (lc_buffer s) (0 <=? ret))
      else None
  | KUnregister =>
      if lc_registered s
      then Some (mk_lifecycle (lc_mutex s) (lc_buffer s) false)
      else None
  | KBufferCleanup =>
      if lc_buffer s && negb (lc_registered s)
      then Some (mk_lifecycle (lc_mutex s) false false)
      else None
  | _ => Some s
  end.

Fixpoint lifecycle_run (s : lifecycle) (t : list kevent) : option lifecycle :=
  match t with
  | [] => Some s
  | e :: t' =>
      match lifecycle_step s e with
      | Some s' => lifecycle_run s' t'
      | None => None
      end
  end.

(** An IIO core with fixed answers, for sample runs. *)
Definition fixed_core (alloc_ok : bool) (setup_ret register_ret : Z)
  : iio_core unit :=
  {| devm_iio_device_alloc := fun k => (alloc_ok, k);
     iio_triggered_buffer_setup := fun k => (setup_ret, k);
     iio_device_register := fun k => (register_ret, k);
     iio_device_unregister := fun k => k;
     iio_triggered_buffer_cleanup := fun k => k |}.

Definition kworld0 : kworld unit := mk_kworld tt None [].

Section Driver.

(** The I2C adapter behind [data->client]: a state and the outcome of the
    two transfer calls. [i2c_master_recv] yields its return value and the
    contents of the receive buffer after the call. *)
Variable bus : Type.
Variable i2c_master_send : bus -> list byte -> Z * bus.
Variable i2c_master_recv : bus -> Z -> Z * rx_buf_t * bus.

(** Constants of the kernel headers. *)
Variable EIO : Z.
Variable EINVAL : Z.
Variable IIO_VAL_INT : Z.
Hypothesis EIO_pos : 0 < EIO.
Hypothesis EINVAL_pos : 0 < EINVAL.
Hypothesis IIO_VAL_INT_nonneg : 0 <= IIO_VAL_INT.

Definition i2c_send (buf : list byte) : M bus Z :=
  fun w =>
    let '(r, b) := i2c_master_send (w_bus w) buf in
    Ok r {| w_bus := b; w_buffer := w_buffer w;
            w_log := w_log w ++ [EvI2cSend buf] |}.

Definition i2c_recv (n : Z) : M bus (Z * rx_buf_t) :=
  fun w =>
    let '(r, data, b) := i2c_master_recv (w_bus w) n in
    Ok (r, data) {| w_bus := b; w_buffer := w_buffer w;
                    w_log := w_log w ++ [EvI2cRecv n] |}.

(** [dht12_read_data]: the value returned and [*sensor_data] afterwards. *)
Definition dht12_read_data (sensor_data : dht12_sensor_data)
  : M bus (Z * dht12_sensor_data) :=
  mutex_lock ;;
  r <- i2c_send tx_buf ;;
  if r <? 0 then
    dev_err "failed to send read request" ;;
    mutex_unlock ;;
    ret (r, sensor_data)
  else
    usleep_range 10000 20000 ;;
    rd <- i2c_recv rx_buf_size ;;
    let '(r, rx_buf) := rd in
    if r <? 0 then
      dev_err "failed to read sensor data" ;;
      mutex_unlock ;;
      ret (r, sensor_data)
    else
      usleep_range 10000 20000 ;;
      mutex_unlock ;;
      emit (EvChecksum (dht12_crc rx_buf) (rx (rx_buf4 rx_buf))) ;;
      if negb (checksum_ok rx_buf) then
        dev_err "failed to verify sensor data" ;;
        ret (- EIO, sensor_data)
      else
        emit (EvDecode (dht12_decode rx_buf)) ;;
        ret (r, dht12_decode rx_buf).

(** The loop of lines 111-117 over the set bits, from slot [i]. *)
Fixpoint fill_slots (sensor_data : dht12_sensor_data) (bits : list nat)
         (i : nat) : M bus nat :=
  match bits with
  | [] => ret i
  | bit :: rest =>
      buffer_store i (channel_value sensor_data bit) ;;
      fill_slots sensor_data rest (S i)
  end.

(** Lines 107-118: assembly of [data->buffer]. *)
Definition fill_buffer (dev : iio_dev) (sensor_data : dht12_sensor_data)
  : M bus unit :=
  if active_scan_mask dev =? DHT12_ALL_CHANNEL_MASK then
    buffer_store 0 (hum_data sensor_data) ;;
    buffer_store 1 (temp_data sensor_data)
  else
    fill_slots sensor_data (set_bits (active_scan_mask dev) (masklength dev)) 0 ;;
    ret tt.

(** [dht12_trigger_handler]; [stack] is what the uninitialised local
    [sensor_data] happens to hold on entry. *)
Definition dht12_trigger_handler (pf : iio_poll_func)
           (stack : dht12_sensor_data) : M bus irqreturn_t :=
  r1 <- dht12_read_data stack ;;
  r2 <- dht12_read_data (snd r1) ;;
  let '(r, sensor_data) := r2 in
  if r <? 0 then
    iio_trigger_notify_done ;;
    ret IRQ_HANDLED
  else
    mutex_lock ;;
    fill_buffer (indio_dev pf) sensor_data ;;
    mutex_unlock ;;
    iio_push_to_buffers_with_timestamp (timestamp pf) ;;
    iio_trigger_notify_done ;;
    ret IRQ_HANDLED.

(** Lines 106-124 of the handler: what follows the test of the second
    return value when that value is not negative. *)
Definition trigger_capture (pf : iio_poll_func)
           (sensor_data : dht12_sensor_data) : M bus irqreturn_t :=
  mutex_lock ;;
  fill_buffer (indio_dev pf) sensor_data ;;
  mutex_unlock ;;
  iio_push_to_buffers_with_timestamp (timestamp pf) ;;
  iio_trigger_notify_done ;;
  ret IRQ_HANDLED.

(** [dht12_read_raw]: the value returned and [*val] afterwards; [val] is
    what the caller's variable holds on entry and [stack] what the
    uninitialised local [sensor_data] does. *)
Definition dht12_read_raw (chan_type : iio_chan_type) (val : Z)
           (mask : iio_chan_info_enum) (stack : dht12_sensor_data)
  : M bus (Z * Z) :=
  match mask with
  | IIO_CHAN_INFO_RAW =>
      rd <- dht12_read_data stack ;;
      let '(r, sensor_data) := rd in
      if r <? 0 then ret (r, val)
      else
        ret (IIO_VAL_INT,
             match chan_type with
             | IIO_HUMIDITYRELATIVE => hum_data sensor_data
             | _ => temp_data sensor_data
             end)
  | IIO_CHAN_INFO_SCALE => ret (IIO_VAL_INT, 100)
  | IIO_CHAN_INFO_other _ => ret (- EINVAL, val)
  end.


(** What one call of [dht12_read_data] does, by cases on what the adapter
    answers. *)
Definition read_data_result (sd : dht12_sensor_data) (w : world bus)
  : Z * dht12_sensor_data * world bus :=
  let '(s, b1) := i2c_master_send (w_bus w) tx_buf in
  if s <? 0 then
    (s, sd, mk_world b1 (w_buffer w) (w_log w ++ log_send_failed))
  else
    let '(r, f, b2) := i2c_master_recv b1 rx_buf_size in
    if r <? 0 then
      (r, sd, mk_world b2 (w_buffer w) (w_log w ++ log_recv_failed))
    else if checksum_ok f then
      (r, dht12_decode f, mk_world b2 (w_buffer w) (w_log w ++ log_good f))
    else
      (- EIO, sd, mk_world b2 (w_buffer w) (w_log w ++ log_bad_checksum f)).

(** ** Basic facts *)

Lemma rx_range (b : byte) : 0 <= rx b <= 255.
Proof.
  unfold rx. pose proof (Byte.to_N_bounded b). lia.
Qed.

Lemma dht12_read_data_eq (sd : dht12_sensor_data) (w : world bus) :
  dht12_read_data sd w =
  let '(r, sd', w') := read_data_result sd w in Ok (r, sd') w'.
Proof.
  unfold dht12_read_data, read_data_result, bind, mutex_lock, mutex_unlock,
    i2c_send, i2c_recv, usleep_range, dev_err, emit, ret; simpl.
  destruct (i2c_master_send (w_bus w) tx_buf) as [s b1].
  destruct (s <? 0); simpl.
  - now rewrite <- !app_assoc.
  - destruct (i2c_master_recv b1 rx_buf_size) as [[r f] b2].
    destruct (r <? 0); simpl.
    + now rewrite <- !app_assoc.
    + destruct (checksum_ok f); simpl;
        unfold log_good, log_bad_checksum, log_exchange;
        now rewrite <- !app_assoc.
Qed.

Lemma ltb_neg (z : Z) : z < 0 -> (z <? 0) = true.
Proof. intros; now apply Z.ltb_lt. Qed.

Lemma ltb_nonneg (z : Z) : 0 <= z -> (z <? 0) = false.
Proof. intros; now apply Z.ltb_ge. Qed.

Lemma checksum_ok_iff (f : rx_buf_t) :
  checksum_ok f = true <->
  rx (rx_buf4 f) =
  (rx (rx_buf0 f) + rx (rx_buf1 f) + rx (rx_buf2 f) + rx (rx_buf3 f)) mod 256.
Proof.
  unfold checksum_ok, dht12_crc, to_u8. rewrite Z.eqb_eq.
  split; intros H; now rewrite H.
Qed.

Lemma to_s16_small (z : Z) : -32768 <= z <= 32767 -> to_s16 z = z.
Proof.
  intros H. unfold to_s16. rewrite Z.mod_small; lia.
Qed.

Lemma dht12_decode_sums (f : rx_buf_t) :
  hum_data (dht12_decode f) = rx (rx_buf0 f) * 100 + rx (rx_buf1 f) /\
  temp_data (dht12_decode f) = rx (rx_buf2 f) * 100 + rx (rx_buf3 f).
Proof.
  pose proof (rx_range (rx_buf0 f)). pose proof (rx_range (rx_buf1 f)).
  pose proof (rx_range (rx_buf2 f)). pose proof (rx_range (rx_buf3 f)).
  unfold dht12_decode; simpl.
  rewrite !to_s16_small by lia. split; reflexivity.
Qed.

(** Rewrites a call of [dht12_read_data] into its case analysis and
    settles the cases with the facts at hand. *)
Ltac run_read_data :=
  rewrite dht12_read_data_eq; unfold read_data_result;
  repeat match goal with
         | H : i2c_master_send _ _ = _ |- _ => rewrite H
         | H : i2c_master_recv _ _ = _ |- _ => rewrite H
         | H : checksum_ok _ = _ |- _ => rewrite H
         | H : ?z < 0 |- context [?z <? 0] => rewrite (ltb_neg z H)
         | H : 0 <= ?z |- context [?z <? 0] => rewrite (ltb_nonneg z H)
         end; cbn iota beta.

(** ** Checksum and decoding *)

(** C1: with a frame received, the checksum test passes exactly when the
    fifth byte is the sum of the first four modulo 256, and the transaction
    then returns the receive count and the decoded reading; otherwise it
    returns the negative [-EIO], logs the verification failure and leaves
    [*sensor_data] as it was: nothing is decoded. *)
Theorem checksum_validation
        (sd : dht12_sensor_data) (w : world bus)
        (s r : Z) (b1 b2 : bus) (f : rx_buf_t) :
  i2c_master_send (w_bus w) tx_buf = (s, b1) -> 0 <= s ->
  i2c_master_recv b1 rx_buf_size = (r, f, b2) -> 0 <= r ->
  let sum :=
    (rx (rx_buf0 f) + rx (rx_buf1 f) + rx (rx_buf2 f) + rx (rx_buf3 f))
      mod 256 in
  (checksum_ok f = true <-> rx (rx_buf4 f) = sum) /\
  (rx (rx_buf4 f) = sum ->
   dht12_read_data sd w =
   Ok (r, dht12_decode f)
      (mk_world b2 (w_buffer w) (w_log w ++ log_good f))) /\
  (rx (rx_buf4 f) <> sum ->
   dht12_read_data sd w =
   Ok (- EIO, sd)
      (mk_world b2 (w_buffer w) (w_log w ++ log_bad_checksum f)) /\
   - EIO < 0 /\
   In (EvDevErr "failed to verify sensor data") (log_bad_checksum f) /\
   forall d, ~ In (EvDecode d) (log_bad_checksum f)).
Proof.
  intros Hs Hs0 Hr Hr0 sum.
  pose proof (checksum_ok_iff f) as Hiff. fold sum in Hiff.
  split; [exact Hiff|]. split.
  - intros Heq. apply Hiff in Heq. now run_read_data.
  - intros Hne.
    assert (Hf : checksum_ok f = false).
    { destruct (checksum_ok f); [|reflexivity].
      exfalso. apply Hne. now apply Hiff. }
    split; [now run_read_data|]. split; [lia|]. split.
    + unfold log_bad_checksum. apply in_or_app. right. simpl. auto.
    + intros d Hin. unfold log_bad_checksum, log_exchange in Hin.
      simpl in Hin.
      repeat (destruct Hin as [Hin|Hin]; [discriminate|]).
      exact Hin.
Qed.

(** C2: for every frame (each byte in 0..255 by its type) the decoded
    humidity is byte 0 times 100 plus byte 1 and the decoded temperature is
    byte 2 times 100 plus byte 3; the conversion to signed 16 bits never
    wraps, so both are the plain sums, between 0 and 25755. *)
Theorem decode_arithmetic (f : rx_buf_t) :
  hum_data (dht12_decode f) = rx (rx_buf0 f) * 100 + rx (rx_buf1 f) /\
  temp_data (dht12_decode f) = rx (rx_buf2 f) * 100 + rx (rx_buf3 f) /\
  0 <= hum_data (dht12_decode f) <= 25755 /\
  0 <= temp_data (dht12_decode f) <= 25755.
Proof.
  pose proof (rx_range (rx_buf0 f)). pose proof (rx_range (rx_buf1 f)).
  pose proof (rx_range (rx_buf2 f)). pose proof (rx_range (rx_buf3 f)).
  unfold dht12_decode; simpl.
  rewrite !to_s16_small by lia. lia.
Qed.

(** ** The bus transaction *)

(** C8: the transaction sends the single byte 0 and, unless the send fails,
    sleeps 10000 to 20000 microseconds, asks for 5 bytes and sleeps 10000 to
    20000 microseconds again. A send that returns a negative value ends the
    transaction at once, with no receive, and that value is returned; a
    receive that returns a negative value ends it at once and that value is
    returned. Whatever happens there is one send and at most one receive. *)
Theorem bus_transaction_protocol
        (sd : dht12_sensor_data) (w : world bus)
        (s r : Z) (b1 b2 : bus) (f : rx_buf_t) :
  i2c_master_send (w_bus w) tx_buf = (s, b1) ->
  i2c_master_recv b1 rx_buf_size = (r, f, b2) ->
  tx_buf = [x00] /\
  (s < 0 ->
   dht12_read_data sd w =
   Ok (s, sd)
      (mk_world b1 (w_buffer w)
         (w_log w ++
          [EvMutexLock; EvI2cSend [x00];
           EvDevErr "failed to send read request"; EvMutexUnlock]))) /\
  (0 <= s -> r < 0 ->
   dht12_read_data sd w =
   Ok (r, sd)
      (mk_world b2 (w_buffer w)
         (w_log w ++
          [EvMutexLock; EvI2cSend [x00]; EvUsleepRange 10000 20000;
           EvI2cRecv 5;
           EvDevErr "failed to read sensor data"; EvMutexUnlock]))) /\
  (0 <= s -> 0 <= r ->
   exists ret sd' rest,
     dht12_read_data sd w =
     Ok (ret, sd')
        (mk_world b2 (w_buffer w)
           (w_log w ++
            [EvMutexLock; EvI2cSend [x00]; EvUsleepRange 10000 20000;
             EvI2cRecv 5; EvUsleepRange 10000 20000; EvMutexUnlock] ++
            rest)) /\
     count is_bus_op rest = 0%nat) /\
  (exists ret sd' w',
     dht12_read_data sd w = Ok (ret, sd') w' /\
     exists evs,
       w_log w' = w_log w ++ evs /\
       count is_send evs = 1%nat /\ (count is_recv evs <= 1)%nat).
Proof.
  intros Hs Hr. split; [reflexivity|].
  split; [|split; [|split]].
  - intros Hs0. now run_read_data.
  - intros Hs0 Hr0. now run_read_data.
  - intros Hs0 Hr0. run_read_data.
    destruct (checksum_ok f).
    + eexists _, _, _. split; [reflexivity|]. reflexivity.
    + eexists _, _, _. split; [reflexivity|]. reflexivity.
  - run_read_data.
    destruct (s <? 0).
    + eexists _, _, _. split; [reflexivity|].
      eexists. split; [reflexivity|]. split; [reflexivity|].
      unfold count; simpl; lia.
    + destruct (r <? 0); [|destruct (checksum_ok f)];
        (eexists _, _, _; split; [reflexivity|];
         eexists; split; [reflexivity|]; split; [reflexivity|];
         unfold count; simpl; lia).
Qed.

(** ** Direct reads *)

(** Every direct read returns; its world is the outcome of at most one
    transaction. *)
Lemma dht12_read_raw_eq
      (chan_type : iio_chan_type) (val : Z) (mask : iio_chan_info_enum)
      (stack : dht12_sensor_data) (w : world bus) :
  dht12_read_raw chan_type val mask stack w =
  match mask with
  | IIO_CHAN_INFO_RAW =>
      let '(r, sd, w') := read_data_result stack w in
      if r <? 0 then Ok (r, val) w'
      else Ok (IIO_VAL_INT,
               match chan_type with
               | IIO_HUMIDITYRELATIVE => hum_data sd
               | _ => temp_data sd
               end) w'
  | IIO_CHAN_INFO_SCALE => Ok (IIO_VAL_INT, 100) w
  | IIO_CHAN_INFO_other _ => Ok (- EINVAL, val) w
  end.
Proof.
  destruct mask; try reflexivity.
  unfold dht12_read_raw, bind. rewrite dht12_read_data_eq.
  destruct (read_data_result stack w) as [[r sd] w']; simpl.
  now destruct (r <? 0).
Qed.

(** The log only grows by one transaction's events, with one send. *)
Lemma read_data_result_log (sd : dht12_sensor_data) (w : world bus) :
  exists evs,
    w_log (snd (read_data_result sd w)) = w_log w ++ evs /\
    count is_send evs = 1%nat /\
    count is_lock evs = 1%nat.
Proof.
  unfold read_data_result.
  destruct (i2c_master_send (w_bus w) tx_buf) as [s b1].
  destruct (s <? 0).
  - eexists; split; [reflexivity|]. split; reflexivity.
  - destruct (i2c_master_recv b1 rx_buf_size) as [[r f] b2].
    destruct (r <? 0); [|destruct (checksum_ok f)];
      (eexists; split; [reflexivity|]; split; reflexivity).
Qed.

(** C7: a direct read of the raw value runs one transaction (the mutex is
    taken once and one send is issued). When the checksum of the received
    frame does not match, the read returns the negative [-EIO], nothing is
    decoded and [*val] keeps the caller's value. For every selector, a
    negative return value leaves [*val] as the caller had it. *)
Theorem direct_read_error_paths
        (chan_type : iio_chan_type) (val : Z) (mask : iio_chan_info_enum)
        (stack : dht12_sensor_data) (w : world bus) :
  exists ret val' w' evs,
    dht12_read_raw chan_type val mask stack w = Ok (ret, val') w' /\
    w_log w' = w_log w ++ evs /\
    (ret < 0 -> val' = val) /\
    (mask = IIO_CHAN_INFO_RAW ->
     count is_send evs = 1%nat /\ count is_lock evs = 1%nat /\
     forall s r b1 b2 f,
       i2c_master_send (w_bus w) tx_buf = (s, b1) -> 0 <= s ->
       i2c_master_recv b1 rx_buf_size = (r, f, b2) -> 0 <= r ->
       checksum_ok f = false ->
       ret = - EIO /\ ret < 0 /\ val' = val /\
       forall d, ~ In (EvDecode d) evs).
Proof.
  rewrite dht12_read_raw_eq. destruct mask.
  - destruct (read_data_result_log stack w) as (evs & Hlog & Hsend & Hlock).
    destruct (read_data_result stack w) as [[r0 sd0] w0] eqn:E.
    simpl in Hlog.
    assert (Hcrc : forall s r b1 b2 f,
               i2c_master_send (w_bus w) tx_buf = (s, b1) -> 0 <= s ->
               i2c_master_recv b1 rx_buf_size = (r, f, b2) -> 0 <= r ->
               checksum_ok f = false ->
               r0 = - EIO /\ forall d, ~ In (EvDecode d) evs).
    { intros s r b1 b2 f Hs Hs0 Hr Hr0 Hc.
      unfold read_data_result in E.
      rewrite Hs, (ltb_nonneg s Hs0), Hr, (ltb_nonneg r Hr0), Hc in E.
      injection E as <- <- <-. simpl in Hlog.
      apply app_inv_head in Hlog. subst evs.
      split; [reflexivity|].
      intros d Hin. unfold log_bad_checksum, log_exchange in Hin.
      simpl in Hin.
      repeat (destruct Hin as [Hin|Hin]; [discriminate|]). exact Hin. }
    destruct (r0 <? 0) eqn:Er0.
    + exists r0, val, w0, evs. repeat split; auto.
      all: intros; destruct (Hcrc s r b1 b2 f) as [? ?]; auto; lia.
    + apply Z.ltb_ge in Er0.
      eexists IIO_VAL_INT, _, w0, evs. split; [reflexivity|].
      split; [assumption|]. split; [lia|]. intros _.
      split; [assumption|]. split; [assumption|].
      intros s r b1 b2 f Hs Hs0 Hr Hr0 Hc.
      destruct (Hcrc s r b1 b2 f) as [? ?]; auto; lia.
  - exists IIO_VAL_INT, 100, w, []. rewrite app_nil_r.
    repeat split; try discriminate. lia.
  - exists (- EINVAL), val, w, []. rewrite app_nil_r.
    repeat split; try discriminate.
Qed.

(** C9: for every direct-read request, whatever the bus would answer:
    with the SCALE selector the read stores 100, returns [IIO_VAL_INT] and
    touches neither the bus nor the log; with any selector other than RAW
    and SCALE it returns the negative [-EINVAL] and does nothing else; with
    the RAW selector and a transaction that succeeds it returns
    [IIO_VAL_INT] and stores the decoded humidity for the humidity channel
    and the decoded temperature otherwise, and with a transaction that
    fails it returns a negative value and leaves [*val] alone. *)
Theorem read_raw_selectors
        (chan_type : iio_chan_type) (val : Z) (stack : dht12_sensor_data)
        (w : world bus) :
  (forall (s r : Z) (b1 b2 : bus) (f : rx_buf_t),
     i2c_master_send (w_bus w) tx_buf = (s, b1) ->
     i2c_master_recv b1 rx_buf_size = (r, f, b2) ->
     (0 <= s -> 0 <= r -> checksum_ok f = true ->
      exists w',
        dht12_read_raw chan_type val IIO_CHAN_INFO_RAW stack w =
        Ok (IIO_VAL_INT,
            match chan_type with
            | IIO_HUMIDITYRELATIVE => rx (rx_buf0 f) * 100 + rx (rx_buf1 f)
            | _ => rx (rx_buf2 f) * 100 + rx (rx_buf3 f)
            end) w') /\
     (s < 0 \/ r < 0 \/ checksum_ok f = false ->
      exists ret w',
        dht12_read_raw chan_type val IIO_CHAN_INFO_RAW stack w =
        Ok (ret, val) w' /\ ret < 0)) /\
  dht12_read_raw chan_type val IIO_CHAN_INFO_SCALE stack w =
  Ok (IIO_VAL_INT, 100) w /\
  (forall n,
     dht12_read_raw chan_type val (IIO_CHAN_INFO_other n) stack w =
     Ok (- EINVAL, val) w) /\
  - EINVAL < 0.
Proof.
  split; [|split; [reflexivity|split; [reflexivity|lia]]].
  intros s r b1 b2 f Hs Hr. split.
  - intros Hs0 Hr0 Hc.
    rewrite dht12_read_raw_eq. unfold read_data_result.
    rewrite Hs, (ltb_nonneg s Hs0), Hr, (ltb_nonneg r Hr0), Hc.
    rewrite (ltb_nonneg r Hr0).
    destruct (dht12_decode_sums f) as (Hh & Ht).
    eexists. rewrite Hh, Ht. now destruct chan_type.
  - intros Hfail.
    rewrite dht12_read_raw_eq. unfold read_data_result. rewrite Hs.
    destruct (s <? 0) eqn:Es.
    + rewrite Es. apply Z.ltb_lt in Es. eexists _, _. split; eauto.
    + rewrite Hr. destruct (r <? 0) eqn:Er.
      * rewrite Er. apply Z.ltb_lt in Er. eexists _, _. split; eauto.
      * apply Z.ltb_ge in Es. apply Z.ltb_ge in Er.
        destruct Hfail as [Hf | [Hf | Hf]]; [lia | lia |].
        rewrite Hf, (ltb_neg (- EIO)) by lia.
        eexists _, _. split; [reflexivity|lia].
Qed.

(** C10, as the driver has it: a checksum mismatch makes the direct read
    return [-EIO] with [*val] untouched. A send or a receive that fails
    makes it return the adapter's negative value, whatever it is, with
    [*val] untouched. So the returned pair of a bus failure is the one of
    a checksum mismatch exactly when the adapter's value is [-EIO]. *)
Theorem checksum_error_is_EIO
        (chan_type : iio_chan_type) (val : Z) (stack : dht12_sensor_data)
        (w_crc w_send w_recv : world bus)
        (s r s' e_send e_recv : Z) (b1 b2 b3 b4 b5 : bus)
        (f f' : rx_buf_t) :
  i2c_master_send (w_bus w_crc) tx_buf = (s, b1) -> 0 <= s ->
  i2c_master_recv b1 rx_buf_size = (r, f, b2) -> 0 <= r ->
  checksum_ok f = false ->
  i2c_master_send (w_bus w_send) tx_buf = (e_send, b3) -> e_send < 0 ->
  i2c_master_send (w_bus w_recv) tx_buf = (s', b4) -> 0 <= s' ->
  i2c_master_recv b4 rx_buf_size = (e_recv, f', b5) -> e_recv < 0 ->
  exists w1 w2 w3,
    dht12_read_raw chan_type val IIO_CHAN_INFO_RAW stack w_crc =
    Ok (- EIO, val) w1 /\
    dht12_read_raw chan_type val IIO_CHAN_INFO_RAW stack w_send =
    Ok (e_send, val) w2 /\
    dht12_read_raw chan_type val IIO_CHAN_INFO_RAW stack w_recv =
    Ok (e_recv, val) w3 /\
    ((e_send, val) = (- EIO, val) <-> e_send = - EIO) /\
    ((e_recv, val) = (- EIO, val) <-> e_recv = - EIO).
Proof.
  intros Hs Hs0 Hr Hr0 Hc Hs2 Hs20 Hs3 Hs30 Hr3 Hr30.
  assert (Hneg : (- EIO <? 0) = true) by (apply Z.ltb_lt; lia).
  rewrite !dht12_read_raw_eq. unfold read_data_result.
  rewrite Hs, (ltb_nonneg s Hs0), Hr, (ltb_nonneg r Hr0), Hc.
  rewrite Hs2, (ltb_neg e_send Hs20).
  rewrite Hs3, (ltb_nonneg s' Hs30), Hr3, (ltb_neg e_recv Hr30).
  rewrite !Hneg, (ltb_neg e_send Hs20), (ltb_neg e_recv Hr30).
  eexists _, _, _. repeat split; try congruence.
Qed.

(** ** The capture buffer *)

Lemma store_events_all_stores (sd : dht12_sensor_data) (bits : list nat)
      (i : nat) :
  forallb is_store (store_events sd bits i) = true.
Proof.
  revert i. induction bits as [|bit rest IH]; intros i; simpl; auto.
Qed.

Lemma store_events_length (sd : dht12_sensor_data) (bits : list nat)
      (i : nat) :
  List.length (store_events sd bits i) = List.length bits.
Proof.
  revert i. induction bits as [|bit rest IH]; intros i; simpl; auto.
Qed.

Lemma count_all (P : event -> bool) (t : list event) :
  forallb P t = true -> count P t = List.length t.
Proof.
  unfold count. induction t as [|e t IH]; simpl; [reflexivity|].
  intros H. apply andb_true_iff in H as [He Ht].
  rewrite He. simpl. now rewrite IH.
Qed.

Lemma count_app (P : event -> bool) (t1 t2 : list event) :
  count P (t1 ++ t2) = (count P t1 + count P t2)%nat.
Proof.
  unfold count. now rewrite filter_app, length_app.
Qed.

Lemma count_none (P Q : event -> bool) (t : list event) :
  (forall e, Q e = true -> P e = false) ->
  forallb Q t = true -> count P t = 0%nat.
Proof.
  intros HPQ. unfold count. induction t as [|e t IH]; simpl; [reflexivity|].
  intros H. apply andb_true_iff in H as [He Ht].
  rewrite (HPQ e He). now apply IH.
Qed.

(** A run of the loop that returns has only stored, slot after slot. *)
Lemma fill_slots_ok (sd : dht12_sensor_data) (bits : list nat) :
  forall (i n : nat) (w w' : world bus),
    fill_slots sd bits i w = Ok n w' ->
    w_bus w' = w_bus w /\
    w_log w' = w_log w ++ store_events sd bits i /\
    n = (i + List.length bits)%nat.
Proof.
  induction bits as [|bit rest IH]; intros i n w w' H; simpl in H.
  - unfold ret in H. injection H as <- <-.
    now rewrite app_nil_r, Nat.add_0_r.
  - unfold bind, buffer_store in H.
    destruct i as [|[|i]]; try discriminate;
      apply IH in H; simpl in H; destruct H as (Hb & Hl & Hn);
      (split; [exact Hb|]; split; [|simpl; lia]);
      rewrite Hl, <- app_assoc; reflexivity.
Qed.

Lemma fill_buffer_ok (dev : iio_dev) (sd : dht12_sensor_data)
      (w w' : world bus) (u : unit) :
  fill_buffer dev sd w = Ok u w' ->
  w_bus w' = w_bus w /\
  exists stores,
    w_log w' = w_log w ++ stores /\ forallb is_store stores = true.
Proof.
  unfold fill_buffer.
  destruct (active_scan_mask dev =? DHT12_ALL_CHANNEL_MASK).
  - unfold bind, buffer_store; simpl. intros H. injection H as _ <-.
    simpl. split; [reflexivity|].
    eexists. rewrite <- app_assoc. split; reflexivity.
  - unfold bind.
    destruct (fill_slots sd _ 0 w) as [n w1|] eqn:E; [|discriminate].
    unfold ret. intros H. injection H as _ <-.
    apply fill_slots_ok in E. destruct E as (Hb & Hl & _).
    split; [exact Hb|]. eexists. split; [exact Hl|].
    apply store_events_all_stores.
Qed.

Lemma testbit_two_channels (mask : Z) (bit : nat) :
  0 <= mask < 4 -> (2 <= bit)%nat -> Z.testbit mask (Z.of_nat bit) = false.
Proof.
  intros Hm Hb.
  destruct (Z.eq_dec mask 0) as [->|Hz]; [apply Z.testbit_0_l|].
  apply Z.bits_above_log2; [lia|].
  assert (Z.log2 mask < 2) by (apply Z.log2_lt_pow2; lia).
  lia.
Qed.

Lemma filter_high_bits (mask : Z) (k : nat) :
  0 <= mask < 4 ->
  forall a, (2 <= a)%nat ->
  filter (fun bit => Z.testbit mask (Z.of_nat bit)) (seq a k) = [].
Proof.
  intros Hm. induction k as [|k IH]; intros a Ha; simpl; [reflexivity|].
  rewrite (testbit_two_channels mask a Hm Ha). apply IH. lia.
Qed.

Lemma set_bits_two_channels (mask : Z) (size : nat) :
  0 <= mask < 4 -> (2 <= size)%nat -> set_bits mask size = set_bits mask 2.
Proof.
  intros Hm Hs. unfold set_bits.
  replace size with (2 + (size - 2))%nat by lia.
  rewrite seq_app, filter_app.
  rewrite (filter_high_bits mask (size - 2) Hm (0 + 2)%nat) by lia.
  replace (2 + (size - 2) - 2)%nat with (size - 2)%nat by lia.
  now rewrite app_nil_r.
Qed.

(** C4: for every reading and every mask over the two channels (with both
    channels below [masklength]): the bits visited are exactly the set bits
    of the mask, in ascending order; with the full mask the buffer becomes
    humidity at index 0 and temperature at index 1; in every case one slot
    is stored per set bit, the first slots hold, in bit order, humidity for
    bit 0 and temperature for any other bit, and the slots after them keep
    what they held. *)
Theorem channel_projection
        (dev : iio_dev) (sd : dht12_sensor_data) (w : world bus) :
  0 <= active_scan_mask dev < 4 -> (2 <= masklength dev)%nat ->
  let mask := active_scan_mask dev in
  let bits := set_bits mask (masklength dev) in
  (forall bit, In bit bits <-> Z.testbit mask (Z.of_nat bit) = true) /\
  StronglySorted lt bits /\
  exists w' stores,
    fill_buffer dev sd w = Ok tt w' /\
    w_bus w' = w_bus w /\
    w_log w' = w_log w ++ stores /\
    count is_store stores = List.length bits /\
    List.length stores = List.length bits /\
    (mask = DHT12_ALL_CHANNEL_MASK ->
     w_buffer w' = (hum_data sd, temp_data sd)) /\
    (mask <> DHT12_ALL_CHANNEL_MASK -> stores = store_events sd bits 0) /\
    firstn (List.length bits) (slots w') = map (channel_value sd) bits /\
    skipn (List.length bits) (slots w') = skipn (List.length bits) (slots w).
Proof.
  intros Hm Hs mask bits.
  assert (Hbits : bits = set_bits mask 2)
    by (apply set_bits_two_channels; assumption).
  split; [|split].
  - intros bit. unfold bits, set_bits. rewrite filter_In, in_seq.
    split; [intros [_ H]; exact H|]. intros H. split; [|exact H].
    destruct (le_lt_dec 2 bit) as [Hge|Hlt]; [|lia].
    rewrite (testbit_two_channels mask bit Hm Hge) in H. discriminate.
  - rewrite Hbits.
    assert (Hc : mask = 0 \/ mask = 1 \/ mask = 2 \/ mask = 3) by lia.
    destruct Hc as [-> | [-> | [-> | ->]]]; cbn;
      repeat constructor.
  - unfold fill_buffer. fold mask. fold bits. rewrite Hbits.
    assert (Hc : mask = 0 \/ mask = 1 \/ mask = 2 \/ mask = 3) by lia.
    destruct w as [b [s0 s1] l].
    destruct Hc as [-> | [-> | [-> | ->]]]; cbn.
    + eexists _, []. rewrite app_nil_r.
      repeat split; try reflexivity; discriminate.
    + eexists _, [_]. repeat split; try reflexivity; discriminate.
    + eexists _, [_]. repeat split; try reflexivity; discriminate.
    + eexists _, [_; _]. rewrite <- app_assoc.
      repeat split; reflexivity.
Qed.

(** ** The trigger handler *)

Lemma dht12_trigger_handler_eq (pf : iio_poll_func)
      (stack : dht12_sensor_data) (w : world bus) :
  dht12_trigger_handler pf stack w =
  let '(r1, sd1, w1) := read_data_result stack w in
  let '(r2, sd2, w2) := read_data_result sd1 w1 in
  if r2 <? 0 then
    Ok IRQ_HANDLED
       (mk_world (w_bus w2) (w_buffer w2)
          (w_log w2 ++ [EvTriggerNotifyDone]))
  else trigger_capture pf sd2 w2.
Proof.
  unfold dht12_trigger_handler, bind at 1. rewrite dht12_read_data_eq.
  destruct (read_data_result stack w) as [[r1 sd1] w1]; simpl.
  unfold bind at 1. rewrite dht12_read_data_eq.
  destruct (read_data_result sd1 w1) as [[r2 sd2] w2]; simpl.
  destruct (r2 <? 0); reflexivity.
Qed.

(** A capture that returns has stored under the mutex, released it, pushed
    the buffer and acknowledged the trigger. *)
Lemma trigger_capture_ok (pf : iio_poll_func) (sd : dht12_sensor_data)
      (w wf : world bus) (res : irqreturn_t) :
  trigger_capture pf sd w = Ok res wf ->
  res = IRQ_HANDLED /\ w_bus wf = w_bus w /\
  exists stores,
    forallb is_store stores = true /\
    w_log wf =
    w_log w ++ [EvMutexLock] ++ stores ++
    [EvMutexUnlock;
     EvPush (fst (w_buffer wf)) (snd (w_buffer wf)) (timestamp pf);
     EvTriggerNotifyDone].
Proof.
  unfold trigger_capture, bind, mutex_lock, mutex_unlock,
    iio_push_to_buffers_with_timestamp, iio_trigger_notify_done, emit, ret.
  destruct (fill_buffer (indio_dev pf) sd _) as [u w1|] eqn:E;
    [|discriminate].
  intros H. injection H as <- <-. simpl.
  apply fill_buffer_ok in E. simpl in E.
  destruct E as (Hb & stores & Hl & Hst).
  split; [reflexivity|]. split; [exact Hb|].
  exists stores. split; [exact Hst|].
  rewrite Hl, <- !app_assoc. reflexivity.
Qed.

(** One transaction leaves the buffer alone and appends one of the four
    transaction logs. *)
Lemma read_data_result_world (sd : dht12_sensor_data) (w : world bus) :
  w_buffer (snd (read_data_result sd w)) = w_buffer w /\
  exists evs,
    transaction_log evs /\
    w_log (snd (read_data_result sd w)) = w_log w ++ evs.
Proof.
  unfold read_data_result.
  destruct (i2c_master_send (w_bus w) tx_buf) as [s b1].
  destruct (s <? 0).
  - split; [reflexivity|]. eexists; split; [constructor|reflexivity].
  - destruct (i2c_master_recv b1 rx_buf_size) as [[r f] b2].
    destruct (r <? 0); [|destruct (checksum_ok f)];
      (split; [reflexivity|]; eexists; split; [constructor|reflexivity]).
Qed.

Lemma transaction_log_counts (evs : list event) :
  transaction_log evs ->
  count is_send evs = 1%nat /\ count is_lock evs = 1%nat /\
  count is_push evs = 0%nat /\ count is_store evs = 0%nat /\
  count is_done evs = 0%nat.
Proof.
  intros H; destruct H; repeat split; reflexivity.
Qed.

(** What the second transaction returns and, when it succeeds, what it
    decodes do not depend on what [sensor_data] held before. *)
Lemma read_data_result_stack (sd sd' : dht12_sensor_data) (w : world bus) :
  fst (fst (read_data_result sd w)) = fst (fst (read_data_result sd' w)) /\
  snd (read_data_result sd w) = snd (read_data_result sd' w) /\
  (0 <= fst (fst (read_data_result sd w)) ->
   snd (fst (read_data_result sd w)) = snd (fst (read_data_result sd' w))).
Proof.
  unfold read_data_result.
  destruct (i2c_master_send (w_bus w) tx_buf) as [s b1].
  destruct (s <? 0) eqn:Es; simpl.
  - apply Z.ltb_lt in Es. repeat split. lia.
  - destruct (i2c_master_recv b1 rx_buf_size) as [[r f] b2].
    destruct (r <? 0) eqn:Er; simpl.
    + apply Z.ltb_lt in Er. repeat split. lia.
    + destruct (checksum_ok f); simpl; repeat split. lia.
Qed.

Lemma trigger_capture_eq (pf : iio_poll_func) (sd : dht12_sensor_data)
      (w : world bus) :
  trigger_capture pf sd w =
  match fill_buffer (indio_dev pf) sd
          (mk_world (w_bus w) (w_buffer w) (w_log w ++ [EvMutexLock])) with
  | Ok _ w1 =>
      Ok IRQ_HANDLED
         (mk_world (w_bus w1) (w_buffer w1)
            (w_log w1 ++
             [EvMutexUnlock;
              EvPush (fst (w_buffer w1)) (snd (w_buffer w1)) (timestamp pf);
              EvTriggerNotifyDone]))
  | Undefined => Undefined
  end.
Proof.
  unfold trigger_capture, bind at 1, mutex_lock, emit.
  unfold bind at 1.
  destruct (fill_buffer (indio_dev pf) sd _) as [u w1|]; [|reflexivity].
  unfold bind, mutex_unlock, iio_push_to_buffers_with_timestamp,
    iio_trigger_notify_done, emit, ret; simpl.
  now rewrite <- !app_assoc.
Qed.

Lemma fill_buffer_two_channels (dev : iio_dev) (sd : dht12_sensor_data)
      (w : world bus) :
  0 <= active_scan_mask dev < 4 -> (2 <= masklength dev)%nat ->
  exists stores,
    fill_buffer dev sd w =
    Ok tt
       (mk_world (w_bus w)
          (if active_scan_mask dev =? 3 then (hum_data sd, temp_data sd)
           else if active_scan_mask dev =? 1
                then (hum_data sd, snd (w_buffer w))
           else if active_scan_mask dev =? 2
                then (temp_data sd, snd (w_buffer w))
           else w_buffer w)
          (w_log w ++ stores)).
Proof.
  intros Hm Hml. destruct dev as [m ml]. simpl in *.
  unfold fill_buffer; simpl.
  assert (Hcases : m = 0 \/ m = 1 \/ m = 2 \/ m = 3) by lia.
  destruct w as [b [s0 s1] l].
  destruct Hcases as [-> | [-> | [-> | ->]]];
    rewrite ?(set_bits_two_channels _ ml) by lia; cbn.
  - exists []. now rewrite app_nil_r.
  - eexists. reflexivity.
  - eexists. reflexivity.
  - eexists. now rewrite <- app_assoc.
Qed.

(** What the stores of [fill_buffer] are, when it returns. *)
Lemma fill_buffer_log (dev : iio_dev) (sd : dht12_sensor_data)
      (w w' : world bus) (u : unit) :
  fill_buffer dev sd w = Ok u w' ->
  w_log w' =
  w_log w ++
  (if active_scan_mask dev =? DHT12_ALL_CHANNEL_MASK
   then [EvBufferStore 0 (hum_data sd); EvBufferStore 1 (temp_data sd)]
   else store_events sd (set_bits (active_scan_mask dev) (masklength dev)) 0).
Proof.
  unfold fill_buffer.
  destruct (active_scan_mask dev =? DHT12_ALL_CHANNEL_MASK).
  - unfold bind, buffer_store; simpl. intros H. injection H as _ <-.
    simpl. now rewrite <- app_assoc.
  - unfold bind.
    destruct (fill_slots sd _ 0 w) as [n w1|] eqn:E; [|discriminate].
    unfold ret. intros H. injection H as _ <-.
    apply fill_slots_ok in E. tauto.
Qed.

(** A transaction that returns a non-negative value has received a frame
    that passes the checksum and has decoded that frame. *)
Lemma read_data_result_success (sd : dht12_sensor_data) (w : world bus) :
  0 <= fst (fst (read_data_result sd w)) ->
  exists s b1 f,
    i2c_master_send (w_bus w) tx_buf = (s, b1) /\
    i2c_master_recv b1 rx_buf_size =
    (fst (fst (read_data_result sd w)), f,
     w_bus (snd (read_data_result sd w))) /\
    checksum_ok f = true /\
    snd (fst (read_data_result sd w)) = dht12_decode f.
Proof.
  unfold read_data_result.
  destruct (i2c_master_send (w_bus w) tx_buf) as [s b1].
  destruct (s <? 0) eqn:Es; simpl.
  - apply Z.ltb_lt in Es. intros H. lia.
  - destruct (i2c_master_recv b1 rx_buf_size) as [[r f] b2] eqn:Er.
    destruct (r <? 0) eqn:Er0; simpl.
    + apply Z.ltb_lt in Er0. intros H. lia.
    + destruct (checksum_ok f) eqn:Ec; simpl.
      * intros _. exists s, b1, f. rewrite Er. auto.
      * intros H. lia.
Qed.

(** C3: a firing calls [dht12_read_data] twice, one call after the other,
    each leaving the log of one whole transaction with one send. Neither
    the first return value nor what the first call left in [sensor_data]
    matters: the second call returns the same, and on success decodes the
    same, from any [sensor_data]. The second return value alone decides
    between acknowledging without a capture and capturing, and after the
    two transactions the bus is not used again. What is captured is the
    second reading: it is decoded from the frame the second transaction
    received; the stores made under the mutex are its humidity and its
    temperature (both for the full mask, one per set bit otherwise); the
    push carries the buffer those stores leave, which for the masks over
    the two channels is the second reading in the enabled slots. *)
Theorem trigger_reads_twice
        (pf : iio_poll_func) (stack : dht12_sensor_data) (w : world bus) :
  exists r1 sd1 w1 r2 sd2 w2 e1 e2,
    dht12_read_data stack w = Ok (r1, sd1) w1 /\
    dht12_read_data sd1 w1 = Ok (r2, sd2) w2 /\
    transaction_log e1 /\ w_log w1 = w_log w ++ e1 /\
    transaction_log e2 /\ w_log w2 = w_log w1 ++ e2 /\
    count is_send e1 = 1%nat /\ count is_send e2 = 1%nat /\
    (forall sd',
       exists sd2',
         dht12_read_data sd' w1 = Ok (r2, sd2') w2 /\
         (0 <= r2 -> sd2' = sd2)) /\
    (r2 < 0 ->
     dht12_trigger_handler pf stack w =
     Ok IRQ_HANDLED
        (mk_world (w_bus w2) (w_buffer w)
           (w_log w2 ++ [EvTriggerNotifyDone]))) /\
    (0 <= r2 ->
     dht12_trigger_handler pf stack w = trigger_capture pf sd2 w2) /\
    (forall res wf,
       dht12_trigger_handler pf stack w = Ok res wf ->
       exists rest,
         w_log wf = w_log w ++ e1 ++ e2 ++ rest /\
         count is_bus_op rest = 0%nat /\
         count is_send (e1 ++ e2 ++ rest) = 2%nat) /\
    (0 <= r2 ->
     exists s b1 f,
       i2c_master_send (w_bus w1) tx_buf = (s, b1) /\
       i2c_master_recv b1 rx_buf_size = (r2, f, w_bus w2) /\
       checksum_ok f = true /\
       hum_data sd2 = rx (rx_buf0 f) * 100 + rx (rx_buf1 f) /\
       temp_data sd2 = rx (rx_buf2 f) * 100 + rx (rx_buf3 f)) /\
    (0 <= r2 ->
     forall res wf,
       dht12_trigger_handler pf stack w = Ok res wf ->
       res = IRQ_HANDLED /\
       w_log wf =
       w_log w2 ++ [EvMutexLock] ++
       (if active_scan_mask (indio_dev pf) =? DHT12_ALL_CHANNEL_MASK
        then [EvBufferStore 0 (hum_data sd2);
              EvBufferStore 1 (temp_data sd2)]
        else store_events sd2
               (set_bits (active_scan_mask (indio_dev pf))
                         (masklength (indio_dev pf))) 0) ++
       [EvMutexUnlock;
        EvPush (fst (w_buffer wf)) (snd (w_buffer wf)) (timestamp pf);
        EvTriggerNotifyDone]) /\
    (0 <= r2 ->
     0 <= active_scan_mask (indio_dev pf) < 4 ->
     (2 <= masklength (indio_dev pf))%nat ->
     exists wf,
       dht12_trigger_handler pf stack w = Ok IRQ_HANDLED wf /\
       w_buffer wf =
       (if active_scan_mask (indio_dev pf) =? 3
        then (hum_data sd2, temp_data sd2)
        else if active_scan_mask (indio_dev pf) =? 1
             then (hum_data sd2, snd (w_buffer w))
        else if active_scan_mask (indio_dev pf) =? 2
             then (temp_data sd2, snd (w_buffer w))
        else w_buffer w)).
Proof.
  pose proof (dht12_trigger_handler_eq pf stack w) as Hh.
  pose proof (dht12_read_data_eq stack w) as H1.
  pose proof (read_data_result_world stack w) as (Hb1 & e1 & Ht1 & Hl1).
  destruct (read_data_result stack w) as [[r1 sd1] w1]. simpl in *.
  pose proof (dht12_read_data_eq sd1 w1) as H2.
  pose proof (read_data_result_world sd1 w1) as (Hb2 & e2 & Ht2 & Hl2).
  pose proof (fun sd' => read_data_result_stack sd1 sd' w1) as Hst.
  pose proof (fun sd' => dht12_read_data_eq sd' w1) as H2'.
  pose proof (read_data_result_success sd1 w1) as Hsucc.
  destruct (read_data_result sd1 w1) as [[r2 sd2] w2]. simpl in *.
  destruct (transaction_log_counts e1 Ht1) as (Hs1 & _).
  destruct (transaction_log_counts e2 Ht2) as (Hs2 & _).
  exists r1, sd1, w1, r2, sd2, w2, e1, e2.
  repeat (split; [assumption|]).
  split; [|split; [|split; [|split; [|split; [|split]]]]].
  - intros sd'. specialize (Hst sd'). specialize (H2' sd').
    destruct (read_data_result sd' w1) as [[r2' sd2'] w2'].
    simpl in Hst. destruct Hst as (<- & <- & Hsd).
    exists sd2'. split; [exact H2'|]. intros H. symmetry. auto.
  - intros Hneg. rewrite Hh, (ltb_neg r2 Hneg). now rewrite Hb2, Hb1.
  - intros Hpos. now rewrite Hh, (ltb_nonneg r2 Hpos).
  - intros res wf Hok. rewrite Hh in Hok.
    assert (Hrest : exists rest,
               w_log wf = w_log w2 ++ rest /\ count is_bus_op rest = 0%nat /\
               count is_send rest = 0%nat).
    { destruct (r2 <? 0).
      - injection Hok as _ <-. simpl. eexists. repeat split.
      - apply trigger_capture_ok in Hok.
        destruct Hok as (_ & _ & stores & Hst' & Hl).
        eexists. split; [exact Hl|].
        rewrite !count_app.
        rewrite (count_none is_bus_op is_store stores),
                (count_none is_send is_store stores); auto.
        all: intros e He; destruct e; try discriminate; reflexivity. }
    destruct Hrest as (rest & Hl & Hc & Hc').
    exists rest. split; [|split; [exact Hc|]].
    + now rewrite Hl, Hl2, Hl1, <- !app_assoc.
    + rewrite !count_app. lia.
  - intros Hpos. destruct (Hsucc Hpos) as (s & b1 & f & Hs & Hr & Hc & ->).
    destruct (dht12_decode_sums f) as (Hhum & Htemp).
    exists s, b1, f. auto.
  - intros Hpos res wf Hok.
    rewrite Hh, (ltb_nonneg r2 Hpos), trigger_capture_eq in Hok.
    destruct (fill_buffer (indio_dev pf) sd2 _) as [u w3|] eqn:E;
      [|discriminate].
    injection Hok as <- <-. apply fill_buffer_log in E.
    split; [reflexivity|]. cbn [w_log w_buffer] in *.
    rewrite E, <- !app_assoc. reflexivity.
  - intros Hpos Hm Hml.
    rewrite Hh, (ltb_nonneg r2 Hpos), trigger_capture_eq.
    destruct (fill_buffer_two_channels (indio_dev pf) sd2
                (mk_world (w_bus w2) (w_buffer w2)
                   (w_log w2 ++ [EvMutexLock])) Hm Hml)
      as (stores & ->).
    eexists. split; [reflexivity|]. cbn [w_buffer].
    now rewrite Hb2, Hb1.
Qed.

(** C6: when the second transaction of a firing fails -- its send or its
    receive returns a negative value, or the received frame fails the
    checksum -- the handler pushes nothing, leaves [data->buffer] alone,
    ends by acknowledging the trigger and returns [IRQ_HANDLED]; every
    firing that returns, failed or not, returns [IRQ_HANDLED]. *)
Theorem trigger_second_failure
        (pf : iio_poll_func) (stack : dht12_sensor_data) (w : world bus)
        (r1 : Z) (sd1 : dht12_sensor_data) (w1 : world bus)
        (s r : Z) (b1 b2 : bus) (f : rx_buf_t) :
  dht12_read_data stack w = Ok (r1, sd1) w1 ->
  i2c_master_send (w_bus w1) tx_buf = (s, b1) ->
  i2c_master_recv b1 rx_buf_size = (r, f, b2) ->
  s < 0 \/ r < 0 \/ checksum_ok f = false ->
  (exists wf evs,
     dht12_trigger_handler pf stack w = Ok IRQ_HANDLED wf /\
     w_buffer wf = w_buffer w /\
     w_log wf = w_log w ++ evs ++ [EvTriggerNotifyDone] /\
     count is_push evs = 0%nat /\ count is_store evs = 0%nat /\
     count is_done evs = 0%nat) /\
  (forall pf' stack' w' res wf',
     dht12_trigger_handler pf' stack' w' = Ok res wf' -> res = IRQ_HANDLED).
Proof.
  intros H1 Hs Hr Hfail. split.
  - rewrite dht12_trigger_handler_eq.
    rewrite dht12_read_data_eq in H1.
    pose proof (read_data_result_world stack w) as (Hb1 & e1 & Ht1 & Hl1).
    destruct (read_data_result stack w) as [[r1' sd1'] w1'].
    injection H1 as -> -> ->. simpl in Hb1, Hl1.
    pose proof (read_data_result_world sd1 w1) as (Hb2 & e2 & Ht2 & Hl2).
    destruct (read_data_result sd1 w1) as [[r2 sd2] w2] eqn:E2.
    simpl in Hb2, Hl2.
    assert (Hneg : r2 < 0).
    { unfold read_data_result in E2. rewrite Hs in E2.
      destruct (s <? 0) eqn:Es.
      - apply Z.ltb_lt in Es. injection E2 as <- _ _. exact Es.
      - rewrite Hr in E2. destruct (r <? 0) eqn:Er.
        + apply Z.ltb_lt in Er. injection E2 as <- _ _. exact Er.
        + apply Z.ltb_ge in Es. apply Z.ltb_ge in Er.
          destruct Hfail as [Hf | [Hf | Hf]]; [lia | lia |].
          rewrite Hf in E2. injection E2 as <- _ _. lia. }
    rewrite (ltb_neg r2 Hneg).
    destruct (transaction_log_counts e1 Ht1) as (_ & _ & Hp1 & Hst1 & Hd1).
    destruct (transaction_log_counts e2 Ht2) as (_ & _ & Hp2 & Hst2 & Hd2).
    eexists _, (e1 ++ e2). split; [reflexivity|]. simpl.
    split; [congruence|]. split.
    + now rewrite Hl2, Hl1, <- !app_assoc.
    + rewrite !count_app. lia.
  - intros pf' stack' w' res wf' H.
    rewrite dht12_trigger_handler_eq in H.
    destruct (read_data_result stack' w') as [[r1' sd1'] w1'].
    destruct (read_data_result sd1' w1') as [[r2' sd2'] w2'].
    destruct (r2' <? 0).
    + now injection H as <- _.
    + now apply trigger_capture_ok in H.
Qed.

(** ** Scope of the mutex *)

Lemma held_after_app (h : bool) (t1 t2 : list event) :
  held_after h (t1 ++ t2) = held_after (held_after h t1) t2.
Proof. unfold held_after. apply fold_left_app. Qed.

Lemma lock_balanced_app (t1 t2 : list event) :
  forall h,
    lock_balanced h (t1 ++ t2) =
    lock_balanced h t1 && lock_balanced (held_after h t1) t2.
Proof.
  induction t1 as [|e t1 IH]; intros h; [reflexivity|].
  destruct e; simpl; rewrite ?IH, ?andb_assoc; reflexivity.
Qed.

Lemma only_while_locked_app (P : event -> bool) (t1 t2 : list event) :
  forall h,
    only_while_locked P h (t1 ++ t2) =
    only_while_locked P h t1 && only_while_locked P (held_after h t1) t2.
Proof.
  induction t1 as [|e t1 IH]; intros h; [reflexivity|].
  simpl. now rewrite IH, andb_assoc.
Qed.

Lemma never_while_locked_app (P : event -> bool) (t1 t2 : list event) :
  forall h,
    never_while_locked P h (t1 ++ t2) =
    never_while_locked P h t1 && never_while_locked P (held_after h t1) t2.
Proof.
  induction t1 as [|e t1 IH]; intros h; [reflexivity|].
  simpl. now rewrite IH, andb_assoc.
Qed.

Lemma lock_scope_ok_app (h : bool) (t1 t2 : list event) :
  lock_scope_ok h t1 = true ->
  lock_scope_ok (held_after h t1) t2 = true ->
  lock_scope_ok h (t1 ++ t2) = true.
Proof.
  unfold lock_scope_ok.
  rewrite lock_balanced_app, only_while_locked_app, never_while_locked_app.
  rewrite !andb_true_iff. tauto.
Qed.

Lemma transaction_log_scope (evs : list event) :
  transaction_log evs ->
  lock_scope_ok false evs = true /\ held_after false evs = false.
Proof.
  intros H; destruct H; split; reflexivity.
Qed.

Lemma stores_scope (stores : list event) :
  forallb is_store stores = true ->
  lock_scope_ok true stores = true /\ held_after true stores = true.
Proof.
  induction stores as [|e t IH]; simpl; [split; reflexivity|].
  intros H. apply andb_true_iff in H as [He Ht].
  destruct e; try discriminate. apply IH in Ht. exact Ht.
Qed.

(** C5, as the driver has it: every transaction takes the mutex before the
    send and releases it after the delay that follows the receive (or right
    after a failed transfer); bus transfers and delays happen only with the
    mutex held, the checksum test and the decoding only with it released.
    The trigger handler takes the mutex a second time around the stores
    into the capture buffer, and pushes and acknowledges with it released.
    The mutex is never taken twice nor left held. *)
Theorem lock_scope
        (pf : iio_poll_func) (stack sd : dht12_sensor_data) (w : world bus) :
  (exists r sd' w' evs,
     dht12_read_data sd w = Ok (r, sd') w' /\
     w_log w' = w_log w ++ evs /\
     lock_scope_ok false evs = true /\ held_after false evs = false) /\
  (forall res wf,
     dht12_trigger_handler pf stack w = Ok res wf ->
     exists evs,
       w_log wf = w_log w ++ evs /\
       lock_scope_ok false evs = true /\ held_after false evs = false).
Proof.
  split.
  - rewrite dht12_read_data_eq.
    pose proof (read_data_result_world sd w) as (_ & evs & Ht & Hl).
    destruct (read_data_result sd w) as [[r sd'] w']. simpl in Hl.
    exists r, sd', w', evs. split; [reflexivity|]. split; [exact Hl|].
    now apply transaction_log_scope.
  - intros res wf H. rewrite dht12_trigger_handler_eq in H.
    pose proof (read_data_result_world stack w) as (_ & e1 & Ht1 & Hl1).
    destruct (read_data_result stack w) as [[r1 sd1] w1]. simpl in Hl1.
    pose proof (read_data_result_world sd1 w1) as (_ & e2 & Ht2 & Hl2).
    destruct (read_data_result sd1 w1) as [[r2 sd2] w2]. simpl in Hl2.
    destruct (transaction_log_scope e1 Ht1) as (Hok1 & Hh1).
    destruct (transaction_log_scope e2 Ht2) as (Hok2 & Hh2).
    assert (Hrest : exists rest,
               w_log wf = w_log w2 ++ rest /\
               lock_scope_ok false rest = true /\
               held_after false rest = false).
    { destruct (r2 <? 0).
      - injection H as _ <-. simpl. eexists. repeat split.
      - apply trigger_capture_ok in H.
        destruct H as (_ & _ & stores & Hst & Hl).
        destruct (stores_scope stores Hst) as (Hok & Hh).
        eexists. split; [exact Hl|]. split.
        + apply (lock_scope_ok_app false [EvMutexLock]); [reflexivity|].
          change (held_after false [EvMutexLock]) with true.
          apply lock_scope_ok_app; [exact Hok|].
          rewrite Hh. reflexivity.
        + rewrite (held_after_app false [EvMutexLock]), held_after_app.
          change (held_after false [EvMutexLock]) with true.
          rewrite Hh. reflexivity. }
    destruct Hrest as (rest & Hl & Hok & Hh).
    exists (e1 ++ e2 ++ rest). split; [|split].
    + now rewrite Hl, Hl2, Hl1, <- !app_assoc.
    + apply lock_scope_ok_app; [exact Hok1|]. rewrite Hh1.
      apply lock_scope_ok_app; [exact Hok2|]. now rewrite Hh2.
    + now rewrite !held_after_app, Hh1, Hh2.
Qed.

(** ** More on the transaction *)

(** X1: A transaction writes [*sensor_data] all or nothing. It returns a
    non-negative value exactly when the send and the receive did and the
    frame passes the checksum; it then returns what the receive returned
    and both fields come from that frame. Otherwise [*sensor_data] is as
    before. [data->buffer] is never touched. *)
Theorem read_data_all_or_nothing
        (sd : dht12_sensor_data) (w : world bus)
        (s r : Z) (b1 b2 : bus) (f : rx_buf_t) :
  i2c_master_send (w_bus w) tx_buf = (s, b1) ->
  i2c_master_recv b1 rx_buf_size = (r, f, b2) ->
  exists ret sd' w',
    dht12_read_data sd w = Ok (ret, sd') w' /\
    w_buffer w' = w_buffer w /\
    (0 <= ret <-> 0 <= s /\ 0 <= r /\ checksum_ok f = true) /\
    (0 <= ret -> ret = r /\ sd' = dht12_decode f) /\
    (ret < 0 -> sd' = sd).
Proof.
  intros Hs Hr. rewrite dht12_read_data_eq. unfold read_data_result.
  rewrite Hs. destruct (s <? 0) eqn:Es.
  - apply Z.ltb_lt in Es. eexists _, _, _. split; [reflexivity|].
    simpl. repeat split; try lia; intros; lia.
  - apply Z.ltb_ge in Es. rewrite Hr. destruct (r <? 0) eqn:Er.
    + apply Z.ltb_lt in Er. eexists _, _, _. split; [reflexivity|].
      simpl. repeat split; try lia; intros; lia.
    + apply Z.ltb_ge in Er. destruct (checksum_ok f) eqn:Ec.
      * eexists _, _, _. split; [reflexivity|].
        simpl. repeat split; auto; intros; lia.
      * eexists _, _, _. split; [reflexivity|].
        simpl. repeat split; try lia; try discriminate; intros; lia.
Qed.

(** ** More on direct reads *)

(** X2: A direct read of the raw value either fails, with a negative return
    value and [*val] as it was, or returns [IIO_VAL_INT] with a value
    between 0 and 25755: the driver never reports a negative reading. *)
Theorem read_raw_value_range
        (chan_type : iio_chan_type) (val : Z) (stack : dht12_sensor_data)
        (w : world bus) :
  exists ret val' w',
    dht12_read_raw chan_type val IIO_CHAN_INFO_RAW stack w =
    Ok (ret, val') w' /\
    ((ret < 0 /\ val' = val) \/
     (ret = IIO_VAL_INT /\ 0 <= val' <= 25755)).
Proof.
  rewrite dht12_read_raw_eq. unfold read_data_result.
  destruct (i2c_master_send (w_bus w) tx_buf) as [s b1].
  destruct (s <? 0) eqn:Es.
  - rewrite Es. apply Z.ltb_lt in Es. eexists _, _, _. split; eauto.
  - destruct (i2c_master_recv b1 rx_buf_size) as [[r f] b2].
    destruct (r <? 0) eqn:Er.
    + rewrite Er. apply Z.ltb_lt in Er. eexists _, _, _. split; eauto.
    + destruct (checksum_ok f).
      * rewrite Er. eexists _, _, _. split; [reflexivity|]. right.
        split; [reflexivity|].
        destruct (dht12_decode_sums f) as (Hh & Ht).
        pose proof (rx_range (rx_buf0 f)).
        pose proof (rx_range (rx_buf1 f)).
        pose proof (rx_range (rx_buf2 f)).
        pose proof (rx_range (rx_buf3 f)).
        destruct chan_type; rewrite ?Hh, ?Ht; lia.
      * rewrite (ltb_neg (- EIO)) by lia.
        eexists _, _, _. split; [reflexivity|]. left. split; [lia|easy].
Qed.

(** X3: What a direct read returns, stores and leaves behind does not depend
    on what its uninitialised local [sensor_data] held: no path reads the
    struct before [dht12_read_data] has filled it. *)
Theorem read_raw_stack_irrelevant
        (chan_type : iio_chan_type) (val : Z) (mask : iio_chan_info_enum)
        (stack stack' : dht12_sensor_data) (w : world bus) :
  dht12_read_raw chan_type val mask stack w =
  dht12_read_raw chan_type val mask stack' w.
Proof.
  rewrite !dht12_read_raw_eq. destruct mask; try reflexivity.
  pose proof (read_data_result_stack stack stack' w) as (Hr & Hw & Hsd).
  destruct (read_data_result stack w) as [[r sd] w1].
  destruct (read_data_result stack' w) as [[r' sd'] w1'].
  simpl in *. subst r' w1'.
  destruct (r <? 0) eqn:Er; [reflexivity|].
  apply Z.ltb_ge in Er. now rewrite (Hsd Er).
Qed.

(** X4: A direct read leaves the capture side alone: [data->buffer] keeps its
    contents, nothing is pushed and no trigger is acknowledged; the mutex
    is used as in every transaction and is free afterwards. Only the RAW
    selector uses the bus or the mutex at all. *)
Theorem read_raw_leaves_capture_alone
        (chan_type : iio_chan_type) (val : Z) (mask : iio_chan_info_enum)
        (stack : dht12_sensor_data) (w : world bus) :
  exists ret val' w' evs,
    dht12_read_raw chan_type val mask stack w = Ok (ret, val') w' /\
    w_buffer w' = w_buffer w /\
    w_log w' = w_log w ++ evs /\
    count is_push evs = 0%nat /\ count is_store evs = 0%nat /\
    count is_done evs = 0%nat /\
    lock_scope_ok false evs = true /\ held_after false evs = false /\
    (mask <> IIO_CHAN_INFO_RAW -> w' = w).
Proof.
  rewrite dht12_read_raw_eq. destruct mask.
  - pose proof (read_data_result_world stack w) as (Hb & evs & Ht & Hl).
    destruct (read_data_result stack w) as [[r sd] w1]. simpl in Hb, Hl.
    destruct (transaction_log_counts evs Ht) as (_ & _ & Hp & Hst & Hd).
    destruct (transaction_log_scope evs Ht) as (Hok & Hh).
    destruct (r <? 0);
      (eexists _, _, w1, evs; split; [reflexivity|];
       repeat split; try assumption; intros Hne; now elim Hne).
  - eexists _, _, w, []. rewrite app_nil_r. repeat split.
  - eexists _, _, w, []. rewrite app_nil_r. repeat split.
Qed.

(** ** More on the trigger handler *)

(** The loop runs off the end of [data->buffer] exactly when it has a bit
    to store and more than two slots would be needed. *)
Lemma fill_slots_bounds (sd : dht12_sensor_data) (bits : list nat) :
  forall (i : nat) (w : world bus),
    ((i + List.length bits <= 2)%nat ->
     exists n w', fill_slots sd bits i w = Ok n w') /\
    (bits <> [] -> (2 < i + List.length bits)%nat ->
     fill_slots sd bits i w = Undefined).
Proof.
  induction bits as [|bit rest IH]; intros i w; simpl.
  - split; [intros _; eexists _, _; reflexivity|]. intros H. now elim H.
  - unfold bind, buffer_store.
    destruct i as [|[|i]].
    + destruct (IH 1%nat
                  (mk_world (w_bus w)
                     (channel_value sd bit, snd (w_buffer w))
                     (w_log w ++ [EvBufferStore 0 (channel_value sd bit)])))
        as (Hok & Hun).
      split; [intros H; apply Hok; lia|].
      intros _ H. apply Hun; [|lia].
      destruct rest; [simpl in H; lia|discriminate].
    + destruct (IH 2%nat
                  (mk_world (w_bus w)
                     (fst (w_buffer w), channel_value sd bit)
                     (w_log w ++ [EvBufferStore 1 (channel_value sd bit)])))
        as (Hok & Hun).
      split; [intros H; apply Hok; lia|].
      intros _ H. apply Hun; [|lia].
      destruct rest; [simpl in H; lia|discriminate].
    + split; [intros H; lia|reflexivity].
Qed.

Lemma trigger_capture_defined (pf : iio_poll_func) (sd : dht12_sensor_data)
      (w : world bus) :
  trigger_capture pf sd w = Undefined <->
  active_scan_mask (indio_dev pf) <> DHT12_ALL_CHANNEL_MASK /\
  (2 < List.length (set_bits (active_scan_mask (indio_dev pf))
                             (masklength (indio_dev pf))))%nat.
Proof.
  unfold trigger_capture, bind at 1, mutex_lock, emit.
  unfold bind at 1, fill_buffer.
  destruct (active_scan_mask (indio_dev pf) =? DHT12_ALL_CHANNEL_MASK) eqn:Em.
  - apply Z.eqb_eq in Em. split; [discriminate|]. intros [H _]. now elim H.
  - apply Z.eqb_neq in Em.
    set (bits := set_bits _ _).
    set (w0 := mk_world _ _ _).
    destruct (fill_slots_bounds sd bits 0 w0) as (Hok & Hun).
    destruct (le_lt_dec (List.length bits) 2) as [Hle|Hgt].
    + destruct (Hok Hle) as (n & w' & E).
      unfold bind at 1. rewrite E. split; [discriminate|]. lia.
    + unfold bind at 1. rewrite Hun; [tauto| |exact Hgt].
      intros E. rewrite E in Hgt. simpl in Hgt. lia.
Qed.

Lemma set_bits_length (mask : Z) (size : nat) :
  0 <= mask < 4 -> (List.length (set_bits mask size) <= 2)%nat.
Proof.
  intros Hm. destruct (le_lt_dec 2 size) as [Hs|Hs].
  - rewrite (set_bits_two_channels mask size Hm Hs).
    unfold set_bits. cbn [seq filter].
    destruct (Z.testbit mask (Z.of_nat 0)), (Z.testbit mask (Z.of_nat 1));
      simpl; lia.
  - unfold set_bits.
    pose proof (filter_length_le
                  (fun bit => Z.testbit mask (Z.of_nat bit)) (seq 0 size)).
    rewrite length_seq in H. lia.
Qed.

(** X5: What the handler returns and leaves behind does not depend on what its
    uninitialised local [sensor_data] held. *)
Theorem trigger_handler_stack_irrelevant
        (pf : iio_poll_func) (stack stack' : dht12_sensor_data)
        (w : world bus) :
  dht12_trigger_handler pf stack w = dht12_trigger_handler pf stack' w.
Proof.
  rewrite !dht12_trigger_handler_eq.
  pose proof (read_data_result_stack stack stack' w) as (_ & Hw & _).
  destruct (read_data_result stack w) as [[r1 sd1] w1].
  destruct (read_data_result stack' w) as [[r1' sd1'] w1'].
  simpl in Hw. subst w1'.
  pose proof (read_data_result_stack sd1 sd1' w1) as (Hr & Hw & Hsd).
  destruct (read_data_result sd1 w1) as [[r2 sd2] w2].
  destruct (read_data_result sd1' w1) as [[r2' sd2'] w2'].
  simpl in *. subst r2' w2'.
  destruct (r2 <? 0) eqn:Er; [reflexivity|].
  apply Z.ltb_ge in Er. now rewrite (Hsd Er).
Qed.

(** X6: A firing stores past the end of [data->buffer] exactly when its second
    transaction succeeds, the mask is not the full mask and more than two
    bits are set below [masklength]. *)
Theorem trigger_overrun_iff
        (pf : iio_poll_func) (stack : dht12_sensor_data) (w : world bus)
        (r1 r2 : Z) (sd1 sd2 : dht12_sensor_data) (w1 w2 : world bus) :
  dht12_read_data stack w = Ok (r1, sd1) w1 ->
  dht12_read_data sd1 w1 = Ok (r2, sd2) w2 ->
  (dht12_trigger_handler pf stack w = Undefined <->
   0 <= r2 /\
   active_scan_mask (indio_dev pf) <> DHT12_ALL_CHANNEL_MASK /\
   (2 < List.length (set_bits (active_scan_mask (indio_dev pf))
                              (masklength (indio_dev pf))))%nat).
Proof.
  intros H1 H2. rewrite dht12_trigger_handler_eq.
  rewrite dht12_read_data_eq in H1.
  destruct (read_data_result stack w) as [[r1' sd1'] w1'].
  injection H1 as -> -> ->.
  rewrite dht12_read_data_eq in H2.
  destruct (read_data_result sd1 w1) as [[r2' sd2'] w2'].
  injection H2 as -> -> ->.
  destruct (r2 <? 0) eqn:Er.
  - apply Z.ltb_lt in Er. split; [discriminate|]. lia.
  - apply Z.ltb_ge in Er. rewrite trigger_capture_defined. tauto.
Qed.

(** X7: With a mask over the two channels, whatever [masklength] is, every
    firing returns [IRQ_HANDLED]: the buffer is never overrun. *)
Theorem trigger_returns_for_two_channel_masks
        (pf : iio_poll_func) (stack : dht12_sensor_data) (w : world bus) :
  0 <= active_scan_mask (indio_dev pf) < 4 ->
  exists wf, dht12_trigger_handler pf stack w = Ok IRQ_HANDLED wf.
Proof.
  intros Hm. rewrite dht12_trigger_handler_eq.
  destruct (read_data_result stack w) as [[r1 sd1] w1].
  destruct (read_data_result sd1 w1) as [[r2 sd2] w2].
  destruct (r2 <? 0); [eexists; reflexivity|].
  destruct (trigger_capture pf sd2 w2) as [res wf|] eqn:E.
  - apply trigger_capture_ok in E as E'. destruct E' as (-> & _).
    now exists wf.
  - apply trigger_capture_defined in E. destruct E as (_ & Hlen).
    pose proof (set_bits_length (active_scan_mask (indio_dev pf))
                  (masklength (indio_dev pf)) Hm).
    lia.
Qed.

(** X8: Every firing that returns ends by acknowledging the trigger, once. When
    the second transaction failed nothing is pushed and [data->buffer] is as
    before; when it succeeded there is one push, right after the mutex is
    released and right before the acknowledgement, and it carries the final
    contents of [data->buffer] and the poll function's timestamp. *)
Theorem trigger_acknowledged_once
        (pf : iio_poll_func) (stack : dht12_sensor_data) (w : world bus)
        (r1 r2 : Z) (sd1 sd2 : dht12_sensor_data) (w1 w2 wf : world bus)
        (res : irqreturn_t) :
  dht12_read_data stack w = Ok (r1, sd1) w1 ->
  dht12_read_data sd1 w1 = Ok (r2, sd2) w2 ->
  dht12_trigger_handler pf stack w = Ok res wf ->
  exists evs,
    w_log wf = w_log w ++ evs ++ [EvTriggerNotifyDone] /\
    count is_done evs = 0%nat /\
    (r2 < 0 -> count is_push evs = 0%nat /\ w_buffer wf = w_buffer w) /\
    (0 <= r2 ->
     exists pre,
       evs = pre ++ [EvMutexUnlock;
                     EvPush (fst (w_buffer wf)) (snd (w_buffer wf))
                            (timestamp pf)] /\
       count is_push pre = 0%nat).
Proof.
  intros H1 H2 Hh. rewrite dht12_trigger_handler_eq in Hh.
  rewrite dht12_read_data_eq in H1.
  pose proof (read_data_result_world stack w) as (Hb1 & e1 & Ht1 & Hl1).
  destruct (read_data_result stack w) as [[r1' sd1'] w1'].
  injection H1 as -> -> ->. simpl in Hb1, Hl1.
  rewrite dht12_read_data_eq in H2.
  pose proof (read_data_result_world sd1 w1) as (Hb2 & e2 & Ht2 & Hl2).
  destruct (read_data_result sd1 w1) as [[r2' sd2'] w2'].
  injection H2 as -> -> ->. simpl in Hb2, Hl2.
  destruct (transaction_log_counts e1 Ht1) as (_ & _ & Hp1 & Hs1 & Hd1).
  destruct (transaction_log_counts e2 Ht2) as (_ & _ & Hp2 & Hs2 & Hd2).
  destruct (r2 <? 0) eqn:Er.
  - apply Z.ltb_lt in Er. injection Hh as _ <-. simpl.
    exists (e1 ++ e2). split; [now rewrite Hl2, Hl1, <- !app_assoc|].
    split; [rewrite count_app; lia|]. split; [|lia].
    intros _. split; [rewrite count_app; lia|congruence].
  - apply Z.ltb_ge in Er. apply trigger_capture_ok in Hh.
    destruct Hh as (_ & _ & stores & Hst & Hl).
    assert (Hps : count is_push stores = 0%nat).
    { apply (count_none is_push is_store); [|exact Hst].
      intros e He; destruct e; try discriminate; reflexivity. }
    assert (Hds : count is_done stores = 0%nat).
    { apply (count_none is_done is_store); [|exact Hst].
      intros e He; destruct e; try discriminate; reflexivity. }
    eexists (e1 ++ e2 ++ [EvMutexLock] ++ stores ++
             [EvMutexUnlock; EvPush _ _ _]).
    split; [rewrite Hl, Hl2, Hl1; repeat rewrite <- app_assoc;
            reflexivity|].
    split; [rewrite !count_app, Hd1, Hd2, Hds; reflexivity|].
    split; [lia|]. intros _.
    exists (e1 ++ e2 ++ [EvMutexLock] ++ stores).
    split; [now rewrite <- !app_assoc|].
    rewrite !count_app, Hp1, Hp2, Hps. reflexivity.
Qed.

(** X9: What a successful firing leaves in [data->buffer] and pushes, for the
    masks over the two channels: with both channels the reading of the
    second frame; with one channel its value in slot 0 and slot 1 as it
    was before the firing; with none the buffer as it was. *)
Theorem trigger_push_contents
        (pf : iio_poll_func) (stack : dht12_sensor_data) (w : world bus)
        (r1 : Z) (sd1 : dht12_sensor_data) (w1 : world bus)
        (s r : Z) (b1 b2 : bus) (f : rx_buf_t) :
  dht12_read_data stack w = Ok (r1, sd1) w1 ->
  i2c_master_send (w_bus w1) tx_buf = (s, b1) -> 0 <= s ->
  i2c_master_recv b1 rx_buf_size = (r, f, b2) -> 0 <= r ->
  checksum_ok f = true ->
  0 <= active_scan_mask (indio_dev pf) < 4 ->
  (2 <= masklength (indio_dev pf))%nat ->
  let hum := rx (rx_buf0 f) * 100 + rx (rx_buf1 f) in
  let temp := rx (rx_buf2 f) * 100 + rx (rx_buf3 f) in
  let mask := active_scan_mask (indio_dev pf) in
  exists wf pre,
    dht12_trigger_handler pf stack w = Ok IRQ_HANDLED wf /\
    w_buffer wf =
    (if mask =? 3 then (hum, temp)
     else if mask =? 1 then (hum, snd (w_buffer w))
     else if mask =? 2 then (temp, snd (w_buffer w))
     else w_buffer w) /\
    w_log wf =
    pre ++ [EvPush (fst (w_buffer wf)) (snd (w_buffer wf)) (timestamp pf);
            EvTriggerNotifyDone].
Proof.
  intros H1 Hs Hs0 Hr Hr0 Hc Hm Hml hum temp mask.
  rewrite dht12_trigger_handler_eq.
  rewrite dht12_read_data_eq in H1.
  pose proof (read_data_result_world stack w) as (Hb1 & _).
  destruct (read_data_result stack w) as [[r1' sd1'] w1'].
  injection H1 as -> -> ->. simpl in Hb1.
  unfold read_data_result.
  rewrite Hs, (ltb_nonneg s Hs0), Hr, (ltb_nonneg r Hr0), Hc.
  rewrite (ltb_nonneg r Hr0), trigger_capture_eq.
  cbn [w_bus w_buffer w_log].
  destruct (fill_buffer_two_channels (indio_dev pf) (dht12_decode f)
              (mk_world b2 (w_buffer w1)
                 ((w_log w1 ++ log_good f) ++ [EvMutexLock])) Hm Hml)
    as (stores & ->).
  destruct (dht12_decode_sums f) as (-> & ->).
  fold hum temp mask. rewrite Hb1.
  eexists _, _. split; [reflexivity|]. split; [reflexivity|].
  cbn [w_log w_buffer].
  change [EvMutexUnlock;
          EvPush ?a ?b ?c; EvTriggerNotifyDone]
    with ([EvMutexUnlock] ++ [EvPush a b c; EvTriggerNotifyDone]).
  rewrite app_assoc. reflexivity.
Qed.

(** X10: Outside the full mask, for any mask with at most two bits set below
    [masklength] (the timestamp bit included): the stores fill the first
    slots in bit order, humidity for bit 0 and temperature for every other
    bit, and leave the remaining slots as they were. *)
Theorem fill_buffer_partial_mask
        (dev : iio_dev) (sd : dht12_sensor_data) (w : world bus) :
  active_scan_mask dev <> DHT12_ALL_CHANNEL_MASK ->
  let bits := set_bits (active_scan_mask dev) (masklength dev) in
  (List.length bits <= 2)%nat ->
  exists w',
    fill_buffer dev sd w = Ok tt w' /\
    w_bus w' = w_bus w /\
    w_log w' = w_log w ++ store_events sd bits 0 /\
    firstn (List.length bits) (slots w') = map (channel_value sd) bits /\
    skipn (List.length bits) (slots w') = skipn (List.length bits) (slots w).
Proof.
  intros Hm bits Hlen. unfold fill_buffer.
  apply Z.eqb_neq in Hm. rewrite Hm. fold bits.
  destruct w as [b [s0 s1] l].
  destruct bits as [|b0 [|b1 [|b2 rest]]]; simpl in Hlen; try lia.
  - eexists. split; [reflexivity|]. simpl. now rewrite app_nil_r.
  - eexists. split; [reflexivity|]. simpl. auto.
  - eexists. split; [reflexivity|]. simpl. rewrite <- app_assoc. auto.
Qed.

(** ** The channel table against the two data paths *)

(** X11: For each of the two data channels of the table, a direct raw read of
    the channel's type, a capture with only the channel's scan index in the
    mask, and a capture with the full mask agree: the value the direct read
    returns is the one the single-channel capture puts in slot 0 and the
    one the full capture puts in the slot of the channel's scan index. *)
Theorem channel_paths_agree
        (c : iio_chan_spec) (val : Z) (stack : dht12_sensor_data)
        (w : world bus) (size : nat)
        (s r : Z) (b1 b2 : bus) (f : rx_buf_t) :
  In c dht12_channels -> info_mask_separate c <> [] ->
  (2 <= size)%nat ->
  i2c_master_send (w_bus w) tx_buf = (s, b1) -> 0 <= s ->
  i2c_master_recv b1 rx_buf_size = (r, f, b2) -> 0 <= r ->
  checksum_ok f = true ->
  exists v w1 w2 w3,
    dht12_read_raw (spec_type c) val IIO_CHAN_INFO_RAW stack w =
    Ok (IIO_VAL_INT, v) w1 /\
    fill_buffer (mk_iio_dev (Z.shiftl 1 (scan_index c)) size)
      (dht12_decode f) w = Ok tt w2 /\
    fst (w_buffer w2) = v /\
    fill_buffer (mk_iio_dev DHT12_ALL_CHANNEL_MASK size)
      (dht12_decode f) w = Ok tt w3 /\
    nth (Z.to_nat (scan_index c)) (slots w3) 0 = v.
Proof.
  intros Hin Hmask Hsize Hs Hs0 Hr Hr0 Hc.
  assert (Hraw : forall t,
             dht12_read_raw t val IIO_CHAN_INFO_RAW stack w =
             Ok (IIO_VAL_INT,
                 match t with
                 | IIO_HUMIDITYRELATIVE => hum_data (dht12_decode f)
                 | _ => temp_data (dht12_decode f)
                 end)
                (mk_world b2 (w_buffer w) (w_log w ++ log_good f))).
  { intros t. rewrite dht12_read_raw_eq. unfold read_data_result.
    rewrite Hs, (ltb_nonneg s Hs0), Hr, (ltb_nonneg r Hr0), Hc.
    now rewrite (ltb_nonneg r Hr0). }
  destruct (fill_buffer_two_channels (mk_iio_dev DHT12_ALL_CHANNEL_MASK size)
              (dht12_decode f) w) as (st3 & H3);
    [simpl; unfold DHT12_ALL_CHANNEL_MASK; lia | exact Hsize |].
  simpl in Hin. destruct Hin as [<- | [<- | [<- | []]]].
  - destruct (fill_buffer_two_channels (mk_iio_dev 1 size)
                (dht12_decode f) w) as (st2 & H2);
      [simpl; lia | exact Hsize |].
    eexists _, _, _, _. split; [apply Hraw|].
    split; [exact H2|]. split; [reflexivity|].
    split; [exact H3|]. reflexivity.
  - destruct (fill_buffer_two_channels (mk_iio_dev 2 size)
                (dht12_decode f) w) as (st2 & H2);
      [simpl; lia | exact Hsize |].
    eexists _, _, _, _. split; [apply Hraw|].
    split; [exact H2|]. split; [reflexivity|].
    split; [exact H3|]. reflexivity.
  - now elim Hmask.
Qed.

End Driver.

(** ** More on the checksum and the decoding *)

Lemma rx_inj (a b : byte) : rx a = rx b -> a = b.
Proof.
  unfold rx. intros H. apply N2Z.inj in H.
  pose proof (Byte.of_to_N a) as Ha. rewrite H, Byte.of_to_N in Ha.
  now injection Ha.
Qed.

Lemma mod_256_cancel (x y c : Z) :
  0 <= x <= 255 -> 0 <= y <= 255 ->
  (x + c) mod 256 = (y + c) mod 256 -> x = y.
Proof.
  intros Hx Hy H. Z.div_mod_to_equations. lia.
Qed.

(** X12: A frame that passes the checksum stops passing it when any single one
    of its five bytes is replaced by a different value. *)
Theorem checksum_detects_single_byte_change (b0 b1 b2 b3 b4 b : byte) :
  checksum_ok (mk_rx_buf b0 b1 b2 b3 b4) = true ->
  (b <> b0 -> checksum_ok (mk_rx_buf b b1 b2 b3 b4) = false) /\
  (b <> b1 -> checksum_ok (mk_rx_buf b0 b b2 b3 b4) = false) /\
  (b <> b2 -> checksum_ok (mk_rx_buf b0 b1 b b3 b4) = false) /\
  (b <> b3 -> checksum_ok (mk_rx_buf b0 b1 b2 b b4) = false) /\
  (b <> b4 -> checksum_ok (mk_rx_buf b0 b1 b2 b3 b) = false).
Proof.
  unfold checksum_ok, dht12_crc, to_u8; simpl. rewrite Z.eqb_eq. intros H.
  pose proof (rx_range b0). pose proof (rx_range b1).
  pose proof (rx_range b2). pose proof (rx_range b3).
  pose proof (rx_range b).
  repeat split; intros Hne; apply Z.eqb_neq; intros H'.
  - apply Hne, rx_inj.
    apply (mod_256_cancel _ _ (rx b1 + rx b2 + rx b3)); try assumption.
    rewrite !Z.add_assoc. congruence.
  - apply Hne, rx_inj.
    apply (mod_256_cancel _ _ (rx b0 + rx b2 + rx b3)); try assumption.
    replace (rx b + (rx b0 + rx b2 + rx b3))
      with (rx b0 + rx b + rx b2 + rx b3) by ring.
    replace (rx b1 + (rx b0 + rx b2 + rx b3))
      with (rx b0 + rx b1 + rx b2 + rx b3) by ring.
    congruence.
  - apply Hne, rx_inj.
    apply (mod_256_cancel _ _ (rx b0 + rx b1 + rx b3)); try assumption.
    replace (rx b + (rx b0 + rx b1 + rx b3))
      with (rx b0 + rx b1 + rx b + rx b3) by ring.
    replace (rx b2 + (rx b0 + rx b1 + rx b3))
      with (rx b0 + rx b1 + rx b2 + rx b3) by ring.
    congruence.
  - apply Hne, rx_inj.
    apply (mod_256_cancel _ _ (rx b0 + rx b1 + rx b2)); try assumption.
    replace (rx b + (rx b0 + rx b1 + rx b2))
      with (rx b0 + rx b1 + rx b2 + rx b) by ring.
    replace (rx b3 + (rx b0 + rx b1 + rx b2))
      with (rx b0 + rx b1 + rx b2 + rx b3) by ring.
    congruence.
  - apply Hne, rx_inj. congruence.
Qed.

(** X13: The checksum does not see the order of the four data bytes: exchanging
    the two humidity bytes, the two temperature bytes, or the humidity pair
    with the temperature pair keeps its verdict, although exchanging two
    different humidity bytes changes the decoded humidity. *)
Theorem checksum_blind_to_reordering (b0 b1 b2 b3 b4 : byte) :
  checksum_ok (mk_rx_buf b1 b0 b2 b3 b4) =
  checksum_ok (mk_rx_buf b0 b1 b2 b3 b4) /\
  checksum_ok (mk_rx_buf b0 b1 b3 b2 b4) =
  checksum_ok (mk_rx_buf b0 b1 b2 b3 b4) /\
  checksum_ok (mk_rx_buf b2 b3 b0 b1 b4) =
  checksum_ok (mk_rx_buf b0 b1 b2 b3 b4) /\
  (b0 <> b1 ->
   hum_data (dht12_decode (mk_rx_buf b1 b0 b2 b3 b4)) <>
   hum_data (dht12_decode (mk_rx_buf b0 b1 b2 b3 b4))).
Proof.
  split; [|split; [|split]].
  - unfold checksum_ok, dht12_crc; simpl. f_equal. f_equal. ring.
  - unfold checksum_ok, dht12_crc; simpl. f_equal. f_equal. ring.
  - unfold checksum_ok, dht12_crc; simpl. f_equal. f_equal. ring.
  - intros Hne Heq.
    destruct (dht12_decode_sums (mk_rx_buf b1 b0 b2 b3 b4)) as (H1 & _).
    destruct (dht12_decode_sums (mk_rx_buf b0 b1 b2 b3 b4)) as (H2 & _).
    rewrite H1, H2 in Heq. simpl in Heq.
    pose proof (rx_range b0). pose proof (rx_range b1).
    apply Hne, rx_inj. lia.
Qed.

(** X14: When the two fractional bytes are below 100, as the sensor sends them,
    the decoded values give the bytes back: the quotient by the scale 100
    is the integral byte and the remainder is the fractional byte. *)
Theorem decode_round_trip (f : rx_buf_t) :
  rx (rx_buf1 f) < 100 -> rx (rx_buf3 f) < 100 ->
  hum_data (dht12_decode f) / 100 = rx (rx_buf0 f) /\
  hum_data (dht12_decode f) mod 100 = rx (rx_buf1 f) /\
  temp_data (dht12_decode f) / 100 = rx (rx_buf2 f) /\
  temp_data (dht12_decode f) mod 100 = rx (rx_buf3 f).
Proof.
  intros H1 H3.
  destruct (dht12_decode_sums f) as (-> & ->).
  pose proof (rx_range (rx_buf0 f)). pose proof (rx_range (rx_buf1 f)).
  pose proof (rx_range (rx_buf2 f)). pose proof (rx_range (rx_buf3 f)).
  repeat split; Z.div_mod_to_equations; lia.
Qed.

(** X15: The two data channels declare signed 16-bit samples in 16 bits of
    storage, and every value the driver decodes fits the declared bits,
    whatever the frame. *)
Theorem channel_format_holds_readings (c : iio_chan_spec) (f : rx_buf_t) :
  In c dht12_channels -> info_mask_separate c <> [] ->
  sign (scan_type c) = "s"%char /\
  storagebits (scan_type c) = 16 /\
  - 2 ^ (realbits (scan_type c) - 1) <= hum_data (dht12_decode f)
    < 2 ^ (realbits (scan_type c) - 1) /\
  - 2 ^ (realbits (scan_type c) - 1) <= temp_data (dht12_decode f)
    < 2 ^ (realbits (scan_type c) - 1).
Proof.
  intros Hin Hmask.
  destruct (dht12_decode_sums f) as (-> & ->).
  pose proof (rx_range (rx_buf0 f)). pose proof (rx_range (rx_buf1 f)).
  pose proof (rx_range (rx_buf2 f)). pose proof (rx_range (rx_buf3 f)).
  simpl in Hin. destruct Hin as [<- | [<- | [<- | []]]]; simpl.
  - change (2 ^ 15) with 32768. repeat split; lia.
  - change (2 ^ 15) with 32768. repeat split; lia.
  - now elim Hmask.
Qed.

(** ** The driver on the scripted adapter

    Below, [EIO] is 5, [EINVAL] is 22 and [IIO_VAL_INT] is 1, the values of
    the kernel headers. *)

(** A frame with a wrong checksum byte: the transaction returns -5 and the
    caller's [sensor_data] is back unchanged. *)
Lemma checksum_validation_witness :
  dht12_read_data script script_send script_recv 5 stack0
    (world0 [sent_ok; (5, frame_bad)]) =
  Ok (-5, stack0) (mk_world [] (0, 0) (log_bad_checksum frame_bad)).
Proof.
  assert (H : 0 < 5) by reflexivity.
  destruct (checksum_validation script script_send script_recv 5 H stack0
              (world0 [sent_ok; (5, frame_bad)]) 1 5 [(5, frame_bad)] []
              frame_bad eq_refl ltac:(lia) eq_refl ltac:(lia))
    as (_ & _ & Hbad).
  apply Hbad. vm_compute. discriminate.
Defined.

(** A send refused with -6: the transaction returns -6 and never receives. *)
Lemma bus_transaction_protocol_witness :
  dht12_read_data script script_send script_recv 5 stack0
    (world0 [(-6, zero_buf)]) =
  Ok (-6, stack0) (mk_world [] (0, 0) log_send_failed).
Proof.
  destruct (bus_transaction_protocol script script_send script_recv 5 stack0
              (world0 [(-6, zero_buf)]) (-6) (-5) [] [] zero_buf
              eq_refl eq_refl)
    as (_ & Hsend & _).
  apply Hsend. reflexivity.
Defined.

(** A direct read of the temperature whose frame fails the checksum returns
    -5 and leaves the caller's 77 in place. *)
Lemma direct_read_error_paths_witness :
  exists w',
    dht12_read_raw script script_send script_recv 5 22 1
      IIO_TEMP 77 IIO_CHAN_INFO_RAW stack0
      (world0 [sent_ok; (5, frame_bad)]) = Ok (-5, 77) w'.
Proof.
  assert (H5 : 0 < 5) by reflexivity.
  assert (H1 : 0 <= 1) by discriminate.
  destruct (direct_read_error_paths script script_send script_recv 5 22 1
              H5 H1 IIO_TEMP 77 IIO_CHAN_INFO_RAW stack0
              (world0 [sent_ok; (5, frame_bad)]))
    as (ret & val' & w' & evs & Hrun & _ & _ & Hraw).
  destruct (Hraw eq_refl) as (_ & _ & Hcrc).
  destruct (Hcrc 1 5 [(5, frame_bad)] [] frame_bad
              eq_refl ltac:(lia) eq_refl ltac:(lia) eq_refl)
    as (Hret & _ & Hval & _).
  exists w'. rewrite Hrun, Hret, Hval. reflexivity.
Defined.

(** A direct read of the humidity from a valid frame returns 1 and 2345;
    a read of the scale returns 1 and 100 on a bus that refuses every
    transfer, and leaves that bus alone. *)
Lemma read_raw_selectors_witness :
  (exists w',
     dht12_read_raw script script_send script_recv 5 22 1
       IIO_HUMIDITYRELATIVE 77 IIO_CHAN_INFO_RAW stack0
       (world0 [sent_ok; (5, frame_good)]) = Ok (1, 2345) w') /\
  dht12_read_raw script script_send script_recv 5 22 1
    IIO_HUMIDITYRELATIVE 77 IIO_CHAN_INFO_SCALE stack0 (world0 []) =
  Ok (1, 100) (world0 []).
Proof.
  assert (H5 : 0 < 5) by reflexivity.
  assert (H22 : 0 < 22) by reflexivity.
  destruct (read_raw_selectors script script_send script_recv 5 22 1 H5 H22
              IIO_HUMIDITYRELATIVE 77 stack0
              (world0 [sent_ok; (5, frame_good)]))
    as (Hraw & _).
  destruct (Hraw 1 5 [(5, frame_good)] [] frame_good eq_refl eq_refl)
    as (Hok & _).
  destruct (read_raw_selectors script script_send script_recv 5 22 1 H5 H22
              IIO_HUMIDITYRELATIVE 77 stack0 (world0 []))
    as (_ & Hscale & _).
  split; [|exact Hscale].
  apply Hok; [discriminate|discriminate|reflexivity].
Defined.

(** A bad checksum gives the direct read (-5, 77); a send refused with -6
    gives (-6, 77) and a receive timing out with -110 gives (-110, 77). *)
Lemma checksum_error_is_EIO_witness :
  exists w1 w2 w3,
    dht12_read_raw script script_send script_recv 5 22 1
      IIO_TEMP 77 IIO_CHAN_INFO_RAW stack0
      (world0 [sent_ok; (5, frame_bad)]) = Ok (-5, 77) w1 /\
    dht12_read_raw script script_send script_recv 5 22 1
      IIO_TEMP 77 IIO_CHAN_INFO_RAW stack0
      (world0 [(-6, zero_buf)]) = Ok (-6, 77) w2 /\
    dht12_read_raw script script_send script_recv 5 22 1
      IIO_TEMP 77 IIO_CHAN_INFO_RAW stack0
      (world0 [sent_ok; (-110, zero_buf)]) = Ok (-110, 77) w3.
Proof.
  assert (H5 : 0 < 5) by reflexivity.
  destruct (checksum_error_is_EIO script script_send script_recv 5 22 1 H5
              IIO_TEMP 77 stack0
              (world0 [sent_ok; (5, frame_bad)])
              (world0 [(-6, zero_buf)])
              (world0 [sent_ok; (-110, zero_buf)])
              1 5 1 (-6) (-110) [(5, frame_bad)] [] [] [(-110, zero_buf)] []
              frame_bad zero_buf
              eq_refl ltac:(discriminate) eq_refl ltac:(discriminate)
              eq_refl
              eq_refl ltac:(reflexivity)
              eq_refl ltac:(discriminate) eq_refl ltac:(reflexivity))
    as (w1 & w2 & w3 & H1 & H2 & H3 & _).
  exists w1, w2, w3. split; [exact H1|]. split; [exact H2|exact H3].
Defined.

(** C10 as stated fails: a send that the adapter refuses with -6 makes the
    direct read return -6, not the -5 of a checksum mismatch, so the
    returned value does tell the two apart. *)
Lemma bus_error_differs_from_checksum_error :
  dht12_read_raw script script_send script_recv 5 22 1
    IIO_TEMP 77 IIO_CHAN_INFO_RAW stack0
    (world0 [sent_ok; (5, frame_bad)]) =
  Ok (-5, 77) (mk_world [] (0, 0) (log_bad_checksum frame_bad)) /\
  dht12_read_raw script script_send script_recv 5 22 1
    IIO_TEMP 77 IIO_CHAN_INFO_RAW stack0
    (world0 [(-6, zero_buf)]) =
  Ok (-6, 77) (mk_world [] (0, 0) log_send_failed) /\
  -6 <> -5.
Proof.
  split; [|split]; [vm_compute; reflexivity | vm_compute; reflexivity |].
  discriminate.
Qed.

(** The temperature-only mask 0b10 on the reading (2345, 2650) stores 2650
    in slot 0 and nothing else. *)
Lemma channel_projection_witness :
  exists w',
    fill_buffer script (mk_iio_dev 2 3) (mk_sensor_data 2345 2650)
      (world0 []) = Ok tt w' /\
    w_log w' = [EvBufferStore 0 2650] /\
    firstn 1 (slots w') = [2650].
Proof.
  destruct (channel_projection script (mk_iio_dev 2 3)
              (mk_sensor_data 2345 2650) (world0 [])
              ltac:(simpl; lia) ltac:(simpl; lia))
    as (_ & _ & w' & stores & Hrun & _ & Hlog & _ & _ & _ & Hst & Hfirst & _).
  exists w'. split; [exact Hrun|]. split.
  - rewrite Hlog, Hst; [reflexivity|discriminate].
  - exact Hfirst.
Defined.

(** A firing whose first transaction is refused at the send and whose
    second one delivers a valid frame captures the second reading: with
    both channels enabled the buffer becomes (2345, 2650). *)
Lemma trigger_reads_twice_witness :
  exists r1 sd1 w1 sd2 w2 wf,
    dht12_read_data script script_send script_recv 5 stack0
      (world0 script_fail_then_good) = Ok (r1, sd1) w1 /\
    r1 = -5 /\
    dht12_read_data script script_send script_recv 5 sd1 w1 =
    Ok (5, sd2) w2 /\
    sd2 = mk_sensor_data 2345 2650 /\
    dht12_trigger_handler script script_send script_recv 5 (pf_mask 3)
      stack0 (world0 script_fail_then_good) =
    trigger_capture script (pf_mask 3) sd2 w2 /\
    dht12_trigger_handler script script_send script_recv 5 (pf_mask 3)
      stack0 (world0 script_fail_then_good) = Ok IRQ_HANDLED wf /\
    w_buffer wf = (2345, 2650).
Proof.
  assert (H5 : 0 < 5) by reflexivity.
  destruct (trigger_reads_twice script script_send script_recv 5 H5
              (pf_mask 3) stack0 (world0 script_fail_then_good))
    as (r1 & sd1 & w1 & r2 & sd2 & w2 & e1 & e2 &
        Hfirst & Hsecond & _ & _ & _ & _ & _ & _ & _ & _ & Hcap & _ &
        _ & _ & Hbuf).
  assert (E1 : Ok (r1, sd1) w1 =
               Ok (-5, stack0)
                  (mk_world [sent_ok; (5, frame_good)] (0, 0)
                     log_send_failed))
    by (rewrite <- Hfirst; reflexivity).
  injection E1 as Er1 Esd1 Ew1.
  assert (E2 : Ok (r2, sd2) w2 =
               Ok (5, mk_sensor_data 2345 2650)
                  (mk_world [] (0, 0)
                     (log_send_failed ++ log_good frame_good)))
    by (rewrite <- Hsecond, Esd1, Ew1; reflexivity).
  injection E2 as Er2 Esd2 Ew2.
  assert (Hpos : 0 <= r2) by (rewrite Er2; discriminate).
  destruct (Hbuf Hpos) as (wf & Hrun & Hwf).
  { split; [discriminate|reflexivity]. }
  { simpl. lia. }
  exists r1, sd1, w1, sd2, w2, wf.
  split; [exact Hfirst|]. split; [exact Er1|].
  split; [rewrite Hsecond, Er2; reflexivity|].
  split; [exact Esd2|].
  split; [apply Hcap; exact Hpos|].
  split; [exact Hrun|].
  rewrite Hwf, Esd2. reflexivity.
Defined.

(** A firing whose second frame fails the checksum pushes nothing, keeps
    the buffer and still acknowledges the trigger. *)
Lemma trigger_second_failure_witness :
  exists wf evs,
    dht12_trigger_handler script script_send script_recv 5 (pf_mask 3)
      stack0 (world0 script_good_then_bad) = Ok IRQ_HANDLED wf /\
    w_buffer wf = (0, 0) /\
    w_log wf = evs ++ [EvTriggerNotifyDone] /\
    count is_push evs = 0%nat.
Proof.
  assert (H5 : 0 < 5) by reflexivity.
  destruct (trigger_second_failure script script_send script_recv 5 H5
              (pf_mask 3) stack0 (world0 script_good_then_bad)
              5 (mk_sensor_data 2345 2650)
              (mk_world [sent_ok; (5, frame_bad)] (0, 0)
                 (log_good frame_good))
              1 5 [(5, frame_bad)] [] frame_bad
              eq_refl eq_refl eq_refl (or_intror (or_intror eq_refl)))
    as ((wf & evs & Hrun & Hbuf & Hlog & Hpush & _) & _).
  exists wf, evs. repeat split; assumption.
Defined.

(** A firing with both channels enabled keeps to the lock discipline. *)
Lemma lock_scope_witness :
  dht12_trigger_handler script script_send script_recv 5 (pf_mask 3)
    stack0 (world0 script_two_good) = Ok IRQ_HANDLED world_two_good /\
  exists evs,
    w_log world_two_good = evs /\
    lock_scope_ok false evs = true /\ held_after false evs = false.
Proof.
  assert (Hrun : dht12_trigger_handler script script_send script_recv 5
                   (pf_mask 3) stack0 (world0 script_two_good) =
                 Ok IRQ_HANDLED world_two_good)
    by (vm_compute; reflexivity).
  split; [exact Hrun|].
  destruct (lock_scope script script_send script_recv 5 (pf_mask 3)
              stack0 stack0 (world0 script_two_good))
    as (_ & Hfiring).
  exact (Hfiring IRQ_HANDLED world_two_good Hrun).
Defined.

(** C5 as stated fails: in a firing with both channels enabled the two
    stores into the capture buffer happen between the second
    [mutex_lock] and its [mutex_unlock]. *)
Lemma buffer_assembly_under_lock :
  dht12_trigger_handler script script_send script_recv 5 (pf_mask 3)
    stack0 (world0 script_two_good) = Ok IRQ_HANDLED world_two_good /\
  never_while_locked is_check_decode_or_store false (w_log world_two_good)
  = false /\
  never_while_locked is_check_or_decode false (w_log world_two_good) = true.
Proof.
  split; [|split]; vm_compute; reflexivity.
Qed.

(** ** Sample runs *)

Example project_full_mask :
  exists w',
    fill_buffer script (mk_iio_dev 3 3) (mk_sensor_data 2345 2650)
      (world0 []) = Ok tt w' /\ slots w' = [2345; 2650].
Proof. eexists. split; reflexivity. Qed.

Example project_humidity_only :
  exists w',
    fill_buffer script (mk_iio_dev 1 3) (mk_sensor_data 2345 2650)
      (world0 []) = Ok tt w' /\ firstn 1 (slots w') = [2345].
Proof. eexists. split; reflexivity. Qed.

Example project_three_bits_overruns :
  fill_buffer script (mk_iio_dev 7 3) (mk_sensor_data 2345 2650)
    (world0 []) = Undefined.
Proof. reflexivity. Qed.

Example firing_pushes_second_reading :
  dht12_trigger_handler script script_send script_recv 5 (pf_mask 3)
    stack0 (world0 script_two_good) = Ok IRQ_HANDLED world_two_good /\
  filter is_push (w_log world_two_good) = [EvPush 2345 2650 1700000000].
Proof. split; vm_compute; reflexivity. Qed.

Example checksum_wraps_modulo_256 :
  checksum_ok (mk_rx_buf xff xff xff xff xfc) = true /\
  dht12_decode (mk_rx_buf xff xff xff xff xfc) = mk_sensor_data 25755 25755.
Proof. split; reflexivity. Qed.

(** ** Probe and remove *)

Section Lifecycle.

Variable K : Type.
Variable core : iio_core K.
Variable ENOMEM : Z.
Hypothesis ENOMEM_pos : 0 < ENOMEM.

(** [dht12_probe] by cases on what the core answers. *)
Lemma dht12_probe_eq (k : kworld K) (ok : bool) (rs rr : Z) (c1 c2 c3 : K) :
  devm_iio_device_alloc core (k_core k) = (ok, c1) ->
  iio_triggered_buffer_setup core c1 = (rs, c2) ->
  iio_device_register core c2 = (rr, c3) ->
  dht12_probe core ENOMEM k =
  if negb ok then
    (- ENOMEM,
     mk_kworld c1 (k_clientdata k)
       (k_log k ++ [KAlloc false; KDevErr "iio allocation failed!"]))
  else if rs <? 0 then
    (rs,
     mk_kworld c2 (Some dht12_indio_dev)
       (k_log k ++
        [KAlloc true; KSetClientdata; KMutexInit;
         KBufferSetup fn_iio_pollfunc_store_time fn_dht12_trigger_handler rs;
         KDevErr "iio triggered buffer setup failed"]))
  else if rr <? 0 then
    (rr,
     mk_kworld (iio_triggered_buffer_cleanup core c3) (Some dht12_indio_dev)
       (k_log k ++
        [KAlloc true; KSetClientdata; KMutexInit;
         KBufferSetup fn_iio_pollfunc_store_time fn_dht12_trigger_handler rs;
         KRegister rr; KBufferCleanup]))
  else
    (0,
     mk_kworld c3 (Some dht12_indio_dev)
       (k_log k ++
        [KAlloc true; KSetClientdata; KMutexInit;
         KBufferSetup fn_iio_pollfunc_store_time fn_dht12_trigger_handler rs;
         KRegister rr])).
Proof.
  intros Ha Hs Hr. unfold dht12_probe. rewrite Ha.
  destruct ok; simpl.
  - rewrite Hs. destruct (rs <? 0); simpl.
    + unfold klog, kset_core; simpl. now rewrite <- !app_assoc.
    + rewrite Hr. destruct (rr <? 0); simpl;
        unfold klog, kset_core; simpl; now rewrite <- !app_assoc.
  - unfold klog, kset_core; simpl. now rewrite <- !app_assoc.
Qed.

(** X16: [dht12_probe] returns 0 exactly when the allocation, the buffer setup
    and the registration all succeed; otherwise it returns [-ENOMEM] for a
    failed allocation or, unchanged, the negative value of the first call
    that failed. It never returns a positive value, even when the core
    does. *)
Theorem probe_return_value
        (k : kworld K) (ok : bool) (rs rr : Z) (c1 c2 c3 : K) :
  devm_iio_device_alloc core (k_core k) = (ok, c1) ->
  iio_triggered_buffer_setup core c1 = (rs, c2) ->
  iio_device_register core c2 = (rr, c3) ->
  let ret := fst (dht12_probe core ENOMEM k) in
  ret <= 0 /\
  (ret = 0 <-> ok = true /\ 0 <= rs /\ 0 <= rr) /\
  (ok = false -> ret = - ENOMEM) /\
  (ok = true -> rs < 0 -> ret = rs) /\
  (ok = true -> 0 <= rs -> rr < 0 -> ret = rr).
Proof.
  intros Ha Hs Hr ret. unfold ret.
  rewrite (dht12_probe_eq k ok rs rr c1 c2 c3 Ha Hs Hr).
  destruct ok; simpl.
  - destruct (rs <? 0) eqn:Es; simpl.
    + apply Z.ltb_lt in Es. repeat split; intros; try lia; discriminate.
    + apply Z.ltb_ge in Es. destruct (rr <? 0) eqn:Er; simpl.
      * apply Z.ltb_lt in Er. repeat split; intros; try lia; discriminate.
      * apply Z.ltb_ge in Er. repeat split; intros; try lia; discriminate.
  - repeat split; intros; try lia; try discriminate.
Qed.

(** X17: Whatever the core answers, the calls of [dht12_probe] come in a legal
    order (the mutex is initialised before the handler is handed over, the
    device is registered only with the buffer set up), and afterwards the
    triggered buffer is set up and the device registered exactly when the
    probe returned 0: a failed probe leaves neither behind. The client data
    is set exactly when the allocation succeeded. *)
Theorem probe_leaves_nothing_behind (k : kworld K) :
  exists evs m,
    k_log (snd (dht12_probe core ENOMEM k)) = k_log k ++ evs /\
    lifecycle_run lc_none evs =
    Some (mk_lifecycle m
            (fst (dht12_probe core ENOMEM k) =? 0)
            (fst (dht12_probe core ENOMEM k) =? 0)) /\
    (fst (dht12_probe core ENOMEM k) = 0 -> m = true) /\
    (k_clientdata (snd (dht12_probe core ENOMEM k)) =
     if fst (devm_iio_device_alloc core (k_core k))
     then Some dht12_indio_dev else k_clientdata k).
Proof.
  destruct (devm_iio_device_alloc core (k_core k)) as [ok c1] eqn:Ha.
  destruct (iio_triggered_buffer_setup core c1) as [rs c2] eqn:Hs.
  destruct (iio_device_register core c2) as [rr c3] eqn:Hr.
  rewrite (dht12_probe_eq k ok rs rr c1 c2 c3 Ha Hs Hr).
  destruct ok; simpl.
  - destruct (rs <? 0) eqn:Es; simpl.
    + apply Z.ltb_lt in Es.
      eexists _, true. split; [reflexivity|]. simpl.
      replace (0 <=? rs) with false by (symmetry; apply Z.leb_gt; lia).
      replace (rs =? 0) with false by (symmetry; apply Z.eqb_neq; lia).
      auto.
    + apply Z.ltb_ge in Es. destruct (rr <? 0) eqn:Er; simpl.
      * apply Z.ltb_lt in Er.
        eexists _, true. split; [reflexivity|]. simpl.
        replace (0 <=? rs) with true by (symmetry; apply Z.leb_le; lia).
        simpl.
        replace (0 <=? rr) with false by (symmetry; apply Z.leb_gt; lia).
        replace (rr =? 0) with false by (symmetry; apply Z.eqb_neq; lia).
        auto.
      * apply Z.ltb_ge in Er.
        eexists _, true. split; [reflexivity|]. simpl.
        replace (0 <=? rs) with true by (symmetry; apply Z.leb_le; lia).
        simpl.
        replace (0 <=? rr) with true by (symmetry; apply Z.leb_le; lia).
        auto.
  - eexists _, false. split; [reflexivity|]. simpl.
    replace (- ENOMEM =? 0) with false by (symmetry; apply Z.eqb_neq; lia).
    repeat split. intros H. lia.
Qed.

(** X18: After a probe that returned 0, [dht12_remove] returns 0 and undoes the
    probe in reverse order: it unregisters the device, then cleans up the
    triggered buffer. Over probe and remove together every call is legal
    and nothing stays set up or registered. *)
Theorem probe_then_remove (k : kworld K) :
  fst (dht12_probe core ENOMEM k) = 0 ->
  exists k' evs,
    dht12_remove core (snd (dht12_probe core ENOMEM k)) = Some (0, k') /\
    k_log k' = k_log k ++ evs ++ [KUnregister; KBufferCleanup] /\
    lifecycle_run lc_none evs = Some (mk_lifecycle true true true) /\
    lifecycle_run lc_none (evs ++ [KUnregister; KBufferCleanup]) =
    Some (mk_lifecycle true false false).
Proof.
  destruct (devm_iio_device_alloc core (k_core k)) as [ok c1] eqn:Ha.
  destruct (iio_triggered_buffer_setup core c1) as [rs c2] eqn:Hs.
  destruct (iio_device_register core c2) as [rr c3] eqn:Hr.
  rewrite (dht12_probe_eq k ok rs rr c1 c2 c3 Ha Hs Hr).
  destruct ok; simpl; [|intros H; lia].
  destruct (rs <? 0) eqn:Es; simpl;
    [apply Z.ltb_lt in Es; intros H; lia|].
  destruct (rr <? 0) eqn:Er; simpl;
    [apply Z.ltb_lt in Er; intros H; lia|].
  apply Z.ltb_ge in Es. apply Z.ltb_ge in Er. intros _.
  unfold dht12_remove, klog, kset_core; simpl.
  eexists _,
    [KAlloc true; KSetClientdata; KMutexInit;
     KBufferSetup fn_iio_pollfunc_store_time fn_dht12_trigger_handler rs;
     KRegister rr].
  split; [reflexivity|]. simpl.
  split; [rewrite <- !app_assoc; reflexivity|].
  replace (0 <=? rs) with true by (symmetry; apply Z.leb_le; lia).
  simpl.
  replace (0 <=? rr) with true by (symmetry; apply Z.leb_le; lia).
  split; reflexivity.
Qed.

End Lifecycle.

(** ** The further properties on sample inputs *)

Lemma checksum_detects_single_byte_change_witness :
  checksum_ok frame_good = true /\ checksum_ok frame_bad = false.
Proof.
  assert (Hgood : checksum_ok (mk_rx_buf x17 x2d x1a x32 x90) = true)
    by reflexivity.
  split; [exact Hgood|].
  destruct (checksum_detects_single_byte_change x17 x2d x1a x32 x90 x91
              Hgood) as (_ & _ & _ & _ & H4).
  apply H4. discriminate.
Defined.

Lemma decode_round_trip_witness :
  hum_data (dht12_decode frame_good) / 100 = 23 /\
  hum_data (dht12_decode frame_good) mod 100 = 45.
Proof.
  assert (H1 : rx (rx_buf1 frame_good) < 100) by reflexivity.
  assert (H3 : rx (rx_buf3 frame_good) < 100) by reflexivity.
  destruct (decode_round_trip frame_good H1 H3) as (Hq & Hr & _).
  split; [exact Hq|exact Hr].
Defined.

Lemma read_data_all_or_nothing_witness :
  exists w',
    dht12_read_data script script_send script_recv 5 stack0
      (world0 [sent_ok; (5, frame_good)]) =
    Ok (5, dht12_decode frame_good) w'.
Proof.
  assert (H5 : 0 < 5) by reflexivity.
  destruct (read_data_all_or_nothing script script_send script_recv 5 H5
              stack0 (world0 [sent_ok; (5, frame_good)])
              1 5 [(5, frame_good)] [] frame_good eq_refl eq_refl)
    as (ret & sd' & w' & Hrun & _ & Hiff & Hok & _).
  assert (Hret : 0 <= ret).
  { apply Hiff. split; [discriminate|]. split; [discriminate|reflexivity]. }
  destruct (Hok Hret) as (-> & ->).
  exists w'. exact Hrun.
Defined.

Lemma read_raw_value_range_witness :
  exists ret val' w',
    dht12_read_raw script script_send script_recv 5 22 1
      IIO_TEMP 77 IIO_CHAN_INFO_RAW stack0
      (world0 [sent_ok; (5, frame_good)]) = Ok (ret, val') w' /\
    ((ret < 0 /\ val' = 77) \/ (ret = 1 /\ 0 <= val' <= 25755)).
Proof.
  assert (H5 : 0 < 5) by reflexivity.
  exact (read_raw_value_range script script_send script_recv 5 22 1 H5
           IIO_TEMP 77 stack0 (world0 [sent_ok; (5, frame_good)])).
Defined.

Lemma read_raw_stack_irrelevant_witness :
  dht12_read_raw script script_send script_recv 5 22 1
    IIO_TEMP 77 IIO_CHAN_INFO_RAW stack0
    (world0 [sent_ok; (5, frame_bad)]) =
  dht12_read_raw script script_send script_recv 5 22 1
    IIO_TEMP 77 IIO_CHAN_INFO_RAW (mk_sensor_data 7 9)
    (world0 [sent_ok; (5, frame_bad)]).
Proof.
  assert (H5 : 0 < 5) by reflexivity.
  exact (read_raw_stack_irrelevant script script_send script_recv 5 22 1 H5
           IIO_TEMP 77 IIO_CHAN_INFO_RAW stack0 (mk_sensor_data 7 9)
           (world0 [sent_ok; (5, frame_bad)])).
Defined.

Lemma trigger_handler_stack_irrelevant_witness :
  dht12_trigger_handler script script_send script_recv 5 (pf_mask 3)
    stack0 (world0 script_good_then_bad) =
  dht12_trigger_handler script script_send script_recv 5 (pf_mask 3)
    (mk_sensor_data 7 9) (world0 script_good_then_bad).
Proof.
  assert (H5 : 0 < 5) by reflexivity.
  exact (trigger_handler_stack_irrelevant script script_send script_recv 5
           H5 (pf_mask 3) stack0 (mk_sensor_data 7 9)
           (world0 script_good_then_bad)).
Defined.

(** Three bits in the mask and a second transaction that succeeds: the
    third store has no slot. *)
Lemma trigger_overrun_iff_witness :
  dht12_trigger_handler script script_send script_recv 5 (pf_mask 7)
    stack0 (world0 script_fail_then_good) = Undefined.
Proof.
  assert (H1 : dht12_read_data script script_send script_recv 5 stack0
                 (world0 script_fail_then_good) =
               Ok (-5, stack0)
                  (mk_world [sent_ok; (5, frame_good)] (0, 0)
                     log_send_failed))
    by (vm_compute; reflexivity).
  assert (H2 : dht12_read_data script script_send script_recv 5 stack0
                 (mk_world [sent_ok; (5, frame_good)] (0, 0)
                    log_send_failed) =
               Ok (5, dht12_decode frame_good)
                  (mk_world [] (0, 0)
                     (log_send_failed ++ log_good frame_good)))
    by (vm_compute; reflexivity).
  apply (trigger_overrun_iff script script_send script_recv 5 (pf_mask 7)
           stack0 (world0 script_fail_then_good) _ _ _ _ _ _ H1 H2).
  split; [discriminate|]. split; [discriminate|].
  vm_compute. reflexivity.
Defined.

Lemma trigger_returns_for_two_channel_masks_witness :
  exists wf,
    dht12_trigger_handler script script_send script_recv 5 (pf_mask 2)
      stack0 (world0 script_two_good) = Ok IRQ_HANDLED wf.
Proof.
  assert (Hm : 0 <= active_scan_mask (indio_dev (pf_mask 2)) < 4)
    by (split; [discriminate|reflexivity]).
  exact (trigger_returns_for_two_channel_masks script script_send
           script_recv 5 (pf_mask 2) stack0 (world0 script_two_good) Hm).
Defined.

Lemma trigger_acknowledged_once_witness :
  exists evs,
    w_log world_two_good = evs ++ [EvTriggerNotifyDone] /\
    count is_done evs = 0%nat.
Proof.
  assert (H1 : dht12_read_data script script_send script_recv 5 stack0
                 (world0 script_two_good) =
               Ok (5, dht12_decode frame_other)
                  (mk_world [sent_ok; (5, frame_good)] (0, 0)
                     (log_good frame_other)))
    by (vm_compute; reflexivity).
  assert (H2 : dht12_read_data script script_send script_recv 5
                 (dht12_decode frame_other)
                 (mk_world [sent_ok; (5, frame_good)] (0, 0)
                    (log_good frame_other)) =
               Ok (5, dht12_decode frame_good)
                  (mk_world [] (0, 0)
                     (log_good frame_other ++ log_good frame_good)))
    by (vm_compute; reflexivity).
  assert (Hh : dht12_trigger_handler script script_send script_recv 5
                 (pf_mask 3) stack0 (world0 script_two_good) =
               Ok IRQ_HANDLED world_two_good)
    by (vm_compute; reflexivity).
  destruct (trigger_acknowledged_once script script_send script_recv 5
              (pf_mask 3) stack0 (world0 script_two_good)
              _ _ _ _ _ _ _ _ H1 H2 Hh)
    as (evs & Hlog & Hdone & _).
  exists evs. split; [exact Hlog|exact Hdone].
Defined.

(** Temperature only, after a first transaction that failed: 2650 goes to
    slot 0 and slot 1 keeps its 0. *)
Lemma trigger_push_contents_witness :
  exists wf,
    dht12_trigger_handler script script_send script_recv 5 (pf_mask 2)
      stack0 (world0 script_fail_then_good) = Ok IRQ_HANDLED wf /\
    w_buffer wf = (2650, 0).
Proof.
  assert (H1 : dht12_read_data script script_send script_recv 5 stack0
                 (world0 script_fail_then_good) =
               Ok (-5, stack0)
                  (mk_world [sent_ok; (5, frame_good)] (0, 0)
                     log_send_failed))
    by (vm_compute; reflexivity).
  assert (Hm : 0 <= active_scan_mask (indio_dev (pf_mask 2)) < 4)
    by (split; [discriminate|reflexivity]).
  assert (Hs : (2 <= masklength (indio_dev (pf_mask 2)))%nat)
    by (simpl; lia).
  destruct (trigger_push_contents script script_send script_recv 5
              (pf_mask 2) stack0 (world0 script_fail_then_good)
              (-5) stack0
              (mk_world [sent_ok; (5, frame_good)] (0, 0) log_send_failed)
              1 5 [(5, frame_good)] [] frame_good
              H1 eq_refl ltac:(discriminate) eq_refl ltac:(discriminate)
              eq_refl Hm Hs)
    as (wf & pre & Hrun & Hbuf & _).
  exists wf. split; [exact Hrun|exact Hbuf].
Defined.

(** The mask 0b110 stores the temperature twice. *)
Lemma fill_buffer_partial_mask_witness :
  exists w',
    fill_buffer script (mk_iio_dev 6 3) (mk_sensor_data 2345 2650)
      (world0 []) = Ok tt w' /\
    slots w' = [2650; 2650].
Proof.
  destruct (fill_buffer_partial_mask script (mk_iio_dev 6 3)
              (mk_sensor_data 2345 2650) (world0 [])
              ltac:(discriminate) ltac:(simpl; lia))
    as (w' & Hrun & _ & _ & Hfirst & _).
  exists w'. split; [exact Hrun|exact Hfirst].
Defined.

Lemma channel_paths_agree_witness :
  exists v w1 w2 w3,
    dht12_read_raw script script_send script_recv 5 22 1
      IIO_TEMP 77 IIO_CHAN_INFO_RAW stack0
      (world0 [sent_ok; (5, frame_good)]) = Ok (1, v) w1 /\
    fill_buffer script (mk_iio_dev 2 3) (dht12_decode frame_good)
      (world0 [sent_ok; (5, frame_good)]) = Ok tt w2 /\
    fst (w_buffer w2) = v /\
    fill_buffer script (mk_iio_dev 3 3) (dht12_decode frame_good)
      (world0 [sent_ok; (5, frame_good)]) = Ok tt w3 /\
    nth 1 (slots w3) 0 = v.
Proof.
  exact (channel_paths_agree script script_send script_recv 5 22 1
           (mk_chan_spec IIO_TEMP [IIO_CHAN_INFO_RAW; IIO_CHAN_INFO_SCALE]
              1 (mk_scan_type "s" 16 16 IIO_CPU))
           77 stack0 (world0 [sent_ok; (5, frame_good)]) 3
           1 5 [(5, frame_good)] [] frame_good
           (or_intror (or_introl eq_refl)) ltac:(discriminate)
           ltac:(lia) eq_refl ltac:(discriminate) eq_refl
           ltac:(discriminate) eq_refl).
Defined.

Lemma channel_format_holds_readings_witness :
  - 32768 <= hum_data (dht12_decode frame_good) < 32768.
Proof.
  destruct (channel_format_holds_readings
              (mk_chan_spec IIO_HUMIDITYRELATIVE
                 [IIO_CHAN_INFO_RAW; IIO_CHAN_INFO_SCALE]
                 0 (mk_scan_type "s" 16 16 IIO_CPU))
              frame_good (or_introl eq_refl) ltac:(discriminate))
    as (_ & _ & Hhum & _).
  exact Hhum.
Defined.

(** Registration refused with -19 after a good setup, with [ENOMEM] 12. *)
Lemma probe_return_value_witness :
  fst (dht12_probe (fixed_core true 0 (-19)) 12 kworld0) = -19.
Proof.
  assert (H12 : 0 < 12) by reflexivity.
  destruct (probe_return_value unit (fixed_core true 0 (-19)) 12 H12
              kworld0 true 0 (-19) tt tt tt eq_refl eq_refl eq_refl)
    as (_ & _ & _ & _ & Hreg).
  apply Hreg; [reflexivity|discriminate|reflexivity].
Defined.

Lemma probe_leaves_nothing_behind_witness :
  exists evs m,
    k_log (snd (dht12_probe (fixed_core true 0 (-19)) 12 kworld0)) = evs /\
    lifecycle_run lc_none evs = Some (mk_lifecycle m false false).
Proof.
  assert (H12 : 0 < 12) by reflexivity.
  destruct (probe_leaves_nothing_behind unit (fixed_core true 0 (-19)) 12
              H12 kworld0) as (evs & m & Hlog & Hrun & _).
  exists evs, m. split; [exact Hlog|exact Hrun].
Defined.

Lemma probe_then_remove_witness :
  exists k' evs,
    dht12_remove (fixed_core true 0 0)
      (snd (dht12_probe (fixed_core true 0 0) 12 kworld0)) = Some (0, k') /\
    k_log k' = evs ++ [KUnregister; KBufferCleanup] /\
    lifecycle_run lc_none (evs ++ [KUnregister; KBufferCleanup]) =
    Some (mk_lifecycle true false false).
Proof.
  assert (H12 : 0 < 12) by reflexivity.
  destruct (probe_then_remove unit (fixed_core true 0 0) 12 H12 kworld0
              eq_refl) as (k' & evs & Hrm & Hlog & _ & Hrun).
  exists k', evs. split; [exact Hrm|]. split; [exact Hlog|exact Hrun].
Defined.
